(** * Material-ordering safety engine and order status workflow

    A shallow embedding of [MaterialOrderingService]
    (server/services: [checkDuplicateOrders], [verifyManagementAuthorization],
    [processMaterialOrder], [getRecentOrderingActivity] and their private
    helpers), of the storage operations they call ([getOrder],
    [updateOrder], [createStatusHistory]) and of [getWorkloadMetrics], of
    the two PATCH handlers that change an order's status, and of
    [generateBasicAlerts].

    Asynchronous code is embedded as a state-and-exception monad over the
    database tables: an [await] is a sequencing point, a rejected promise
    is a raised exception, [try]/[catch] is [tryCatch]. *)

From Stdlib Require Import ZArith QArith String Ascii DecimalString Floats Uint63.
From stdpp Require Import gmap strings list.

Open Scope string_scope.
Open Scope Z_scope.
Open Scope list_scope.

(** ** JavaScript values used by the service *)

(** Truthiness of an optional string argument ([overrideCode?: string]):
    [undefined] and the empty string are falsy. *)
Definition truthy (s : option string) : bool :=
  match s with
  | Some (String _ _) => true
  | _ => false
  end.

(** [a || b] on an optional string with a string default. *)
Definition orElse (s : option string) (dflt : string) : string :=
  match s with
  | Some (String c r) => String c r
  | _ => dflt
  end.

(** A JavaScript number as it occurs in the date computations: an
    integer-valued double, or [NaN].  [NaN] also stands for the two
    infinities: the date operations below yield NaN on each of the three. *)
Inductive JSNumber :=
| Num (z : Z)
| NaN.

(** A [Date] object: a time value in milliseconds, or an invalid date. *)
Inductive JSDate :=
| ValidDate (ms : Z)
| InvalidDate.

(** [ToNumber] of a property read: a missing property reads [undefined],
    and [ToNumber(undefined)] is [NaN]. *)
Definition toNumber (v : option Z) : JSNumber :=
  match v with
  | Some z => Num z
  | None => NaN
  end.

(** [a - b] for an hour of the day and a threshold; the difference of an
    hour and a number of hours on this scale is exact. *)
Definition js_sub (a b : JSNumber) : JSNumber :=
  match a, b with
  | Num x, Num y => Num (x - y)
  | _, _ => NaN
  end.

Definition msPerSecond : Z := 1000.
Definition msPerMinute : Z := 60000.
Definition msPerHour : Z := 3600000.
Definition msPerDay : Z := 86400000.

(** The largest time value of a [Date], in either direction. *)
Definition maxTime : Z := 8640000000000000.

(** The double nearest to an integer, ties to even.  An integer below
    2^53 in magnitude is a double; beyond, 53 significant bits are kept,
    and the result is infinite from 2^1024 on. *)
Definition nearestDouble (z : Z) : JSNumber :=
  let a := Z.abs z in
  let excess := Z.log2 a - 52 in
  if excess <=? 0 then Num z
  else
    let unit := 2 ^ excess in
    let q := a / unit in
    let r := a mod unit in
    let q := if (unit <? 2 * r) || ((unit =? 2 * r) && Z.odd q) then q + 1 else q in
    if 2 ^ 1024 <=? q * unit then NaN else Num (Z.sgn z * (q * unit)).

(** [a + b] and [a * b] on such numbers. *)
Definition js_add (a b : JSNumber) : JSNumber :=
  match a, b with
  | Num x, Num y => nearestDouble (x + y)
  | _, _ => NaN
  end.

Definition js_mul (a b : JSNumber) : JSNumber :=
  match a, b with
  | Num x, Num y => nearestDouble (x * y)
  | _, _ => NaN
  end.

(** Day, HourFromTime, MinFromTime, SecFromTime and msFromTime of a time
    value. *)
Definition dayOf (t : Z) : Z := t / msPerDay.
Definition hourOfDay (t : Z) : Z := (t / msPerHour) mod 24.
Definition minFromTime (t : Z) : Z := (t / msPerMinute) mod 60.
Definition secFromTime (t : Z) : Z := (t / msPerSecond) mod 60.
Definition msFromTime (t : Z) : Z := t mod msPerSecond.

(** MakeTime for an [hour] that is an integer already, MakeDate and
    TimeClip. *)
Definition makeTime (hour : JSNumber) (min sec ms : Z) : JSNumber :=
  js_add (js_add (js_add (js_mul hour (Num msPerHour))
                         (js_mul (Num min) (Num msPerMinute)))
                 (js_mul (Num sec) (Num msPerSecond)))
         (Num ms).

Definition makeDate (day : Z) (time : JSNumber) : JSNumber :=
  js_add (js_mul (Num day) (Num msPerDay)) time.

Definition timeClip (t : JSNumber) : JSDate :=
  match t with
  | Num t => if Z.abs t <=? maxTime then ValidDate t else InvalidDate
  | NaN => InvalidDate
  end.

(** [d.getHours()] and [d.setHours(hour)] where local time is UTC plus
    [zone] milliseconds, a fixed offset (no daylight saving).
    [getHours] is the hour of the local day; [setHours] moves [d] to
    hour [hour] of its local day, rolling over to another day when
    [hour] leaves 0..23, and yields an invalid date on a NaN operand or
    when the result is no time value.  [hour] is the integer part of the
    argument, which is what [setHours] takes of it. *)
Definition getHoursAt (zone : Z) (d : JSDate) : JSNumber :=
  match d with
  | ValidDate tv => Num (hourOfDay (tv + zone))
  | InvalidDate => NaN
  end.

Definition setHoursAt (zone : Z) (d : JSDate) (hour : JSNumber) : JSDate :=
  match d, hour with
  | ValidDate tv, Num _ =>
      let t := tv + zone in
      let date :=
        makeDate (dayOf t)
                 (makeTime hour (minFromTime t) (secFromTime t) (msFromTime t)) in
      timeClip (js_add date (Num (- zone)))
  | _, _ => InvalidDate
  end.

(** The cutoff of [checkDuplicateOrders] is the same in every zone (it is
    never a date); it is computed here at offset 0. *)
Definition getHours (d : JSDate) : JSNumber := getHoursAt 0 d.

Definition setHours (d : JSDate) (h : JSNumber) : JSDate := setHoursAt 0 d h.

(** The hour of a day as a double, and the integer part of a double as
    MakeTime takes it: ToIntegerOrInfinity, NaN for a number that is not
    finite. *)
Definition hourNumber (h : JSNumber) : float :=
  match h with
  | Num h => PrimFloat.of_uint63 (Uint63.of_Z h)
  | NaN => PrimFloat.nan
  end.

Definition integerPart (x : float) : JSNumber :=
  match Prim2SF x with
  | S754_zero _ => Num 0
  | S754_finite negative m e =>
      let a := if 0 <=? e then Z.pos m * 2 ^ e else Z.pos m / 2 ^ (- e) in
      Num (if negative then - a else a)
  | S754_infinity _ => NaN
  | S754_nan => NaN
  end.

(** Exceptions. *)
Inductive Exn :=
| DbError (msg : string)
| SyntaxError (msg : string)
| TypeError (msg : string)
| RangeError (msg : string).

Inductive Result (A : Type) :=
| Ok (a : A)
| Throw (e : Exn).
Arguments Ok {A} a.
Arguments Throw {A} e.

Definition rbind {A B} (r : Result A) (k : A -> Result B) : Result B :=
  match r with
  | Ok a => k a
  | Throw e => Throw e
  end.

(** Decimal rendering of a count inside a template literal. *)
Definition showNat (n : nat) : string := NilEmpty.string_of_uint (Nat.to_uint n).

(** ** Data model *)

Inductive OrderStatus :=
| ORDER_PROCESSED
| MATERIALS_ORDERED
| MATERIALS_ARRIVED
| FRAME_CUT
| MAT_CUT
| PREPPED
| READY_FOR_PICKUP
| COMPLETED
| PICKED_UP
| MYSTERY_UNCLAIMED.

Global Instance OrderStatus_eq_dec : EqDecision OrderStatus.
Proof. solve_decision. Defined.

Inductive RiskLevel := LOW | MEDIUM | HIGH | CRITICAL.

Global Instance RiskLevel_eq_dec : EqDecision RiskLevel.
Proof. solve_decision. Defined.

Definition showRisk (r : RiskLevel) : string :=
  match r with
  | LOW => "LOW"
  | MEDIUM => "MEDIUM"
  | HIGH => "HIGH"
  | CRITICAL => "CRITICAL"
  end.

(** A row of [orders], restricted to the columns the core reads or writes. *)
Record Order := mkOrder {
  order_id : string;
  order_status : OrderStatus;
  order_notes : option string;
  order_updatedAt : Z
}.

(** A row of [status_history]. *)
Record StatusHistoryEntry := mkStatusHistory {
  sh_id : string;
  sh_orderId : string;
  sh_fromStatus : option OrderStatus;
  sh_toStatus : OrderStatus;
  sh_changedBy : string;
  sh_reason : option string
}.

(** A vendor/item pair of a material signature. *)
Record Material := mkMaterial {
  vendor : string;
  item : string
}.

(** The object a stored [orderDetails] text parses to, restricted to the
    properties that are written ([timestamp], [userId], [wasOverridden]) or
    read ([materials], [vendor]) by the service.  [None] is an absent
    property. *)
Record DetailsObject := mkDetails {
  d_timestamp : option Z;
  d_userId : option string;
  d_wasOverridden : option bool;
  d_materials : option (list Material);
  d_vendor : option string
}.

(** The [orderDetails] column, seen through [JSON.parse]: null or empty
    (falsy), text that does not parse, or the text of an object. *)
Inductive DetailsText :=
| NoDetails
| BadJson
| JsonText (o : DetailsObject).

(** Modelled from the spec: the [materialOrderHistory] table declaration is
    missing from the schema; a MaterialOrderAuditRecord is
    {id, orderId, orderedBy, orderedAt, wasOverridden, orderDetails}, which
    are also the columns that [logMaterialOrder] inserts. *)
Record MaterialOrderAuditRecord := mkAudit {
  mo_id : string;
  mo_orderId : string;
  mo_orderedBy : string;
  mo_orderedAt : Z;
  mo_wasOverridden : bool;
  mo_orderDetails : DetailsText
}.

Record DuplicateOrderCheck := mkCheck {
  isDuplicate : bool;
  existingOrders : list MaterialOrderAuditRecord;
  requiresOverride : bool;
  riskLevel : RiskLevel
}.

(** ** Material signatures: [extractMaterialsFromNotes] *)

Definition isDigit (c : ascii) : bool :=
  (48 <=? nat_of_ascii c)%nat && (nat_of_ascii c <=? 57)%nat.

(** The maximal run of digits at the head of [s] (a greedy [\d*]). *)
Fixpoint takeDigits (s : string) : string :=
  match s with
  | String c r => if isDigit c then String c (takeDigits r) else ""
  | EmptyString => ""
  end.

Fixpoint stripPrefix (p s : string) : option string :=
  match p, s with
  | EmptyString, _ => Some s
  | String a p', String b s' => if Ascii.eqb a b then stripPrefix p' s' else None
  | String _ _, EmptyString => None
  end.

(** The regular expression [/<lit>(<letter>\d+)/] anchored at the head of
    [s]: the capture group when it matches. *)
Definition matchCodeHere (lit : string) (letter : ascii) (s : string) : option string :=
  match stripPrefix lit s with
  | Some (String c rest) =>
      if Ascii.eqb c letter then
        match takeDigits rest with
        | EmptyString => None
        | ds => Some (String letter ds)
        end
      else None
  | _ => None
  end.

(** [s.match(/<lit>(<letter>\d+)/)]: capture group 1 of the leftmost match. *)
Fixpoint matchCode (lit : string) (letter : ascii) (s : string) : option string :=
  match matchCodeHere lit letter s with
  | Some c => Some c
  | None =>
      match s with
      | String _ r => matchCode lit letter r
      | EmptyString => None
      end
  end.

(** [s.includes(sub)] *)
Fixpoint includes (s sub : string) : bool :=
  match stripPrefix sub s with
  | Some _ => true
  | None =>
      match s with
      | String _ r => includes r sub
      | EmptyString => false
      end
  end.

Definition pushIf (m : option Material) (acc : list Material) : list Material :=
  match m with
  | Some x => acc ++ [x]
  | None => acc
  end.

Definition extractMaterialsFromNotes (notes : string) : list Material :=
  let materials := [] in
  let materials :=
    pushIf (mkMaterial "Roma Moulding" <$> matchCode "Frame: " "R" notes) materials in
  let materials :=
    pushIf (mkMaterial "Larson Juhl" <$> matchCode "Frame: " "L" notes) materials in
  let materials :=
    pushIf (mkMaterial "Crescent" <$> matchCode "Mat: " "C" notes) materials in
  let materials :=
    pushIf (if includes notes "Museum Glass"
            then Some (mkMaterial "Guardian Glass" "Museum Glass") else None) materials in
  materials.

(** ** Jaccard similarity: [calculateMaterialSimilarity] *)

(** The template literal [`${m.vendor}:${m.item}`]. *)
Definition materialKey (m : Material) : string := vendor m +:+ ":" +:+ item m.

(** [new Set(xs)] as its insertion-ordered list of distinct elements. *)
Definition newSet (xs : list string) : list string := remove_dups xs.

Definition setHas (s : list string) (x : string) : bool := bool_decide (x ∈ s).

(** The quotient of two set sizes, as an exact rational. *)
Definition ratio (n d : nat) : Q := Z.of_nat n # Pos.of_nat d.

Definition calculateMaterialSimilarity (materials1 materials2 : list Material) : Q :=
  if (length materials1 =? 0)%nat && (length materials2 =? 0)%nat then 0%Q
  else if (length materials1 =? 0)%nat || (length materials2 =? 0)%nat then 0%Q
  else
    let set1 := newSet (materialKey <$> materials1) in
    let set2 := newSet (materialKey <$> materials2) in
    let intersection := newSet (List.filter (setHas set2) set1) in
    let union := newSet (set1 ++ set2) in
    ratio (length intersection) (length union).

(** [x > 0.8] *)
Definition exceeds80 (x : Q) : bool := negb (Qle_bool x (8 # 10)).

(** ** The database, the clock and the call trace *)

(** A call to a collaborator, recorded in program order. *)
Inductive Call :=
| CallSelectHistory (cutoff : JSDate)
| CallGetOrder (orderId : string)
| CallUpdateOrder (orderId : string)
| CallCreateStatusHistory (orderId : string)
| CallInsertMaterialOrder (orderId : string)
| CallVerifyAuthorization (overrideCode userId reason : string).

(** The tables, the number of identifiers drawn so far and the calls made. *)
Record Store := mkStore {
  ordersT : list Order;
  statusHistoryT : list StatusHistoryEntry;
  materialOrderHistoryT : list MaterialOrderAuditRecord;
  uuids : nat;
  calls : list Call
}.

(** Modelled from the spec: the [db] module is not in src.  The Order
    Store is a record store with query-by-filter whose lookups may fail
    (persistence unavailable).  [selectHistorySince cutoff rows] is the
    answer of
    [db.select().from(materialOrderHistory).where(gte(orderedAt, cutoff))]
    over the table contents [rows]; the [..Throws] fields say for which
    order id a statement is rejected.  The environment also holds what
    else the program does not decide: the clock and the identifiers that
    [randomUUID()] returns. *)
Record Env := mkEnv {
  clock : Z;
  randomUUID : nat -> string;
  selectHistorySince :
    JSDate -> list MaterialOrderAuditRecord -> Result (list MaterialOrderAuditRecord);
  getOrderThrows : string -> bool;
  updateOrderThrows : string -> bool;
  createStatusHistoryThrows : string -> bool;
  insertMaterialOrderThrows : string -> bool
}.

(** Computations over the store that may raise; what was written before
    an exception stays written. *)
Definition M (A : Type) : Type := Store -> Result A * Store.

Definition ret {A} (a : A) : M A := fun s => (Ok a, s).

Definition throw {A} (e : Exn) : M A := fun s => (Throw e, s).

Definition bind {A B} (m : M A) (k : A -> M B) : M B :=
  fun s =>
    match m s with
    | (Ok a, s') => k a s'
    | (Throw e, s') => (Throw e, s')
    end.

Definition tryCatch {A} (m : M A) (handler : Exn -> M A) : M A :=
  fun s =>
    match m s with
    | (Ok a, s') => (Ok a, s')
    | (Throw e, s') => handler e s'
    end.

Definition liftResult {A} (r : Result A) : M A := fun s => (r, s).

Notation "'do' x <- c1 ;; c2" := (bind c1 (fun x => c2))
  (at level 10, x name, c1 at level 99, c2 at level 200, only parsing).

Definition record (c : Call) : M unit :=
  fun s => (Ok tt, mkStore (ordersT s) (statusHistoryT s) (materialOrderHistoryT s)
                           (uuids s) (calls s ++ [c])).

(** [Promise.all(xs.map(f))]: every [f x] is started, in order; the result
    is the list of values, or the first rejection. *)
Fixpoint promiseAll {A B} (f : A -> M B) (xs : list A) : M (list B) :=
  match xs with
  | [] => ret []
  | x :: rest =>
      fun s =>
        match f x s with
        | (r, s1) =>
            match promiseAll f rest s1 with
            | (rs, s2) => (rbind r (fun b => rbind rs (fun bs => Ok (b :: bs))), s2)
            end
        end
  end.

(** The outcome of an awaited call, kept for the code after the [await]. *)
Definition settled {A} (m : M A) : M (Result A) :=
  fun s => match m s with (r, s') => (Ok r, s') end.

(** [Promise.all(xs.map(async x => ...))] for a callback that awaits
    [first x] and then goes on with [next x].  [map] starts every callback,
    and a callback runs up to its first [await]: the calls [first x] are all
    made, in list order, before any callback goes on.  The callbacks then
    resume in list order, the awaited calls being answered in the order
    they were made. *)
Definition promiseAllAsync {A B C} (first : A -> M B) (next : A -> Result B -> M C)
    (xs : list A) : M (list C) :=
  do started <- promiseAll (fun x => do r <- settled (first x) ;; ret (x, r)) xs ;;
  promiseAll (fun xr => next (fst xr) (snd xr)) started.

Definition dbError : Exn := DbError "connection terminated".

Section Service.

Variable env : Env.

(** *** storage.ts *)

Definition getOrder (id : string) : M (option Order) :=
  do _ <- record (CallGetOrder id) ;;
  fun s =>
    if getOrderThrows env id then (Throw dbError, s)
    else (Ok (List.find (fun o => String.eqb (order_id o) id) (ordersT s)), s).

(** The fields of a [Partial<InsertOrder>] that the core sets. *)
Record OrderPatch := mkPatch {
  patch_status : option OrderStatus;
  patch_notes : option (option string)
}.

Definition applyPatch (p : OrderPatch) (o : Order) : Order :=
  mkOrder (order_id o)
          (default (order_status o) (patch_status p))
          (default (order_notes o) (patch_notes p))
          (clock env).

(** [db.update(orders).set({...order, updatedAt}).where(eq(orders.id, id))]:
    no row matches an unknown id, and nothing is raised for it. *)
Definition updateOrder (id : string) (p : OrderPatch) : M unit :=
  do _ <- record (CallUpdateOrder id) ;;
  fun s =>
    if updateOrderThrows env id then (Throw dbError, s)
    else (Ok tt,
          mkStore ((fun o => if String.eqb (order_id o) id then applyPatch p o else o)
                     <$> ordersT s)
                  (statusHistoryT s) (materialOrderHistoryT s) (uuids s) (calls s)).

(** [randomUUID()] *)
Definition freshUUID : M string :=
  fun s => (Ok (randomUUID env (uuids s)),
            mkStore (ordersT s) (statusHistoryT s) (materialOrderHistoryT s)
                    (S (uuids s)) (calls s)).

Definition createStatusHistory (orderId : string) (fromStatus : option OrderStatus)
    (toStatus : OrderStatus) (changedBy : string) (reason : option string) : M unit :=
  do id <- freshUUID ;;
  do _ <- record (CallCreateStatusHistory orderId) ;;
  fun s =>
    if createStatusHistoryThrows env orderId then (Throw dbError, s)
    else (Ok tt,
          mkStore (ordersT s)
                  (statusHistoryT s ++
                     [mkStatusHistory id orderId fromStatus toStatus changedBy reason])
                  (materialOrderHistoryT s) (uuids s) (calls s)).

(** *** MaterialOrderingService *)

Definition MANAGEMENT_OVERRIDE_CODE : string := "MGMT_OVERRIDE_2025_MATERIALS".
Definition DUPLICATE_THRESHOLD_HOURS : Z := 24.
Definition MAX_DAILY_ORDERS_PER_VENDOR : nat := 5.

(** The three constants above are [static]: they are properties of the
    class.  [checkDuplicateOrders] reads [this.DUPLICATE_THRESHOLD_HOURS],
    a property of the instance, which the class never defines. *)
Definition this_DUPLICATE_THRESHOLD_HOURS : option Z := None.

Definition cutoffTime : JSDate :=
  let cutoffTime := ValidDate (clock env) in
  setHours cutoffTime
           (js_sub (getHours cutoffTime) (toNumber this_DUPLICATE_THRESHOLD_HOURS)).

Definition selectRecentHistory (cutoff : JSDate) : M (list MaterialOrderAuditRecord) :=
  do _ <- record (CallSelectHistory cutoff) ;;
  fun s => (selectHistorySince env cutoff (materialOrderHistoryT s), s).

(** [recentOrder.orderDetails ? JSON.parse(recentOrder.orderDetails) : {}] *)
Definition parseDetails (t : DetailsText) : Result DetailsObject :=
  match t with
  | NoDetails => Ok (mkDetails None None None None None)
  | BadJson => Throw (SyntaxError "Unexpected token in JSON")
  | JsonText o => Ok o
  end.

(** The inner loop of [checkSimilarMaterials], over the recent orders. *)
Fixpoint similarToRecent (newOrderMaterials : list Material)
    (recentOrders : list MaterialOrderAuditRecord) : Result bool :=
  match recentOrders with
  | [] => Ok false
  | recentOrder :: rest =>
      rbind (parseDetails (mo_orderDetails recentOrder)) (fun recentOrderDetails =>
        let recentMaterials := default [] (d_materials recentOrderDetails) in
        let similarity := calculateMaterialSimilarity newOrderMaterials recentMaterials in
        if exceeds80 similarity then Ok true
        else similarToRecent newOrderMaterials rest)
  end.

Fixpoint checkSimilarMaterials (newOrders : list (option Order))
    (recentOrders : list MaterialOrderAuditRecord) : Result bool :=
  match newOrders with
  | [] => Ok false
  | None :: rest => checkSimilarMaterials rest recentOrders
  | Some newOrder :: rest =>
      let newOrderMaterials :=
        extractMaterialsFromNotes (default "" (order_notes newOrder)) in
      rbind (similarToRecent newOrderMaterials recentOrders) (fun hit =>
        if hit then Ok true else checkSimilarMaterials rest recentOrders)
  end.

(** The [forEach] that fills [vendorCounts]. *)
Fixpoint countVendors (recentOrders : list MaterialOrderAuditRecord)
    (vendorCounts : gmap string nat) : Result (gmap string nat) :=
  match recentOrders with
  | [] => Ok vendorCounts
  | order :: rest =>
      rbind (parseDetails (mo_orderDetails order)) (fun details =>
        let vendor := orElse (d_vendor details) "Unknown" in
        countVendors rest
          (<[vendor := (default 0 (vendorCounts !! vendor) + 1)%nat]> vendorCounts))
  end.

Definition overLimit (vendorCounts : gmap string nat) (vendor : string) : bool :=
  let currentCount := default 0%nat (vendorCounts !! vendor) in
  (MAX_DAILY_ORDERS_PER_VENDOR <=? currentCount)%nat.

Fixpoint anyOverLimit (vendorCounts : gmap string nat)
    (newOrders : list (option Order)) : bool :=
  match newOrders with
  | [] => false
  | None :: rest => anyOverLimit vendorCounts rest
  | Some order :: rest =>
      let materials := extractMaterialsFromNotes (default "" (order_notes order)) in
      let vendors :=
        List.filter (fun v => negb (String.eqb v "")) (vendor <$> materials) in
      if existsb (overLimit vendorCounts) vendors then true
      else anyOverLimit vendorCounts rest
  end.

Definition checkVendorOrderLimits (newOrders : list (option Order))
    (recentOrders : list MaterialOrderAuditRecord) : Result bool :=
  rbind (countVendors recentOrders ∅) (fun vendorCounts =>
    Ok (anyOverLimit vendorCounts newOrders)).

Definition failSafe : DuplicateOrderCheck := mkCheck false [] true CRITICAL.

(** The [try] block of [checkDuplicateOrders]. *)
Definition checkDuplicateOrdersBody (orderIds : list string) : M DuplicateOrderCheck :=
  do recentOrders <- selectRecentHistory cutoffTime ;;
  let duplicateOrderIds :=
    List.filter (fun orderId =>
      existsb (fun order => String.eqb (mo_orderId order) orderId) recentOrders) orderIds in
  do orderDetails <- promiseAll getOrder orderIds ;;
  do risk <- liftResult (
    if (0 <? length duplicateOrderIds)%nat then Ok (CRITICAL, true)
    else
      rbind (checkSimilarMaterials orderDetails recentOrders) (fun similar =>
        if similar then Ok (HIGH, true)
        else
          rbind (checkVendorOrderLimits orderDetails recentOrders) (fun limited =>
            if limited then Ok (MEDIUM, true) else Ok (LOW, false)))) ;;
  ret (mkCheck (0 <? length duplicateOrderIds)%nat
               (List.filter (fun order =>
                  existsb (String.eqb (mo_orderId order)) duplicateOrderIds) recentOrders)
               (snd risk) (fst risk)).

Definition checkDuplicateOrders (orderIds : list string) : M DuplicateOrderCheck :=
  tryCatch (checkDuplicateOrdersBody orderIds) (fun _ => ret failSafe).

(** [logOverrideAttempt] only writes to the console. *)
Definition logOverrideAttempt (userId reason : string) (successful : bool) : M unit :=
  ret tt.

Definition verifyManagementAuthorization (overrideCode userId reason : string) : M bool :=
  do _ <- record (CallVerifyAuthorization overrideCode userId reason) ;;
  tryCatch
    (if negb (String.eqb overrideCode MANAGEMENT_OVERRIDE_CODE) then ret false
     else
       do _ <- logOverrideAttempt userId reason true ;;
       ret true)
    (fun _ =>
       do _ <- logOverrideAttempt userId reason false ;;
       ret false).

(** The row and the JSON snapshot that [logMaterialOrder] builds. *)
Definition auditRecord (id orderId userId : string) (wasOverridden : bool)
  : MaterialOrderAuditRecord :=
  mkAudit id orderId userId (clock env) wasOverridden
          (JsonText (mkDetails (Some (clock env)) (Some userId) (Some wasOverridden)
                               None None)).

Definition insertMaterialOrder (r : MaterialOrderAuditRecord) : M unit :=
  do _ <- record (CallInsertMaterialOrder (mo_orderId r)) ;;
  fun s =>
    if insertMaterialOrderThrows env (mo_orderId r) then (Throw dbError, s)
    else (Ok tt,
          mkStore (ordersT s) (statusHistoryT s) (materialOrderHistoryT s ++ [r])
                  (uuids s) (calls s)).

Definition logMaterialOrder (orderId userId : string) (wasOverridden : bool) : M unit :=
  tryCatch
    (do id <- freshUUID ;;
     insertMaterialOrder (auditRecord id orderId userId wasOverridden))
    (fun _ => ret tt).

Record ProcessResult := mkResult {
  success : bool;
  message : string;
  result_requiresOverride : option bool;
  duplicateCheck : option DuplicateOrderCheck
}.

(** An element of [results]. *)
Record OrderResult := mkOrderResult {
  r_orderId : string;
  r_success : bool
}.

(** The callback mapped over [orderIds] in step 4.  Its first [await] is
    on [storage.updateOrder(orderId, { status: 'MATERIALS_ORDERED', ... })]: *)
Definition markMaterialsOrdered (orderId : string) : M unit :=
  updateOrder orderId (mkPatch (Some MATERIALS_ORDERED) None).

(** and this is the callback from that [await] on, [updated] being the
    outcome of the update; the [try] block spans both. *)
Definition processOrder (userId : string) (overrideCode : option string)
    (orderId : string) (updated : Result unit) : M OrderResult :=
  tryCatch
    (do _ <- liftResult updated ;;
     do _ <- logMaterialOrder orderId userId (if truthy overrideCode then true else false) ;;
     ret (mkOrderResult orderId true))
    (fun _ => ret (mkOrderResult orderId false)).

Definition blockedMessage (c : DuplicateOrderCheck) : string :=
  "MANAGEMENT OVERRIDE REQUIRED: " +:+ showRisk (riskLevel c) +:+ " risk detected. " +:+
  (if isDuplicate c then "Duplicate orders found." else "Similar orders recently placed.").

Definition summaryMessage (succeeded failed : nat) (overrideCode : option string) : string :=
  "Successfully ordered materials for " +:+ showNat succeeded +:+ " orders" +:+
  (if (0 <? failed)%nat then ", " +:+ showNat failed +:+ " failed" else "") +:+
  (if truthy overrideCode then " (Management Override Used)" else "").

(** Step 4 and the summary: every order of the batch is updated before the
    first audit row is written. *)
Definition processOrders (orderIds : list string) (userId : string)
    (overrideCode : option string) (c : DuplicateOrderCheck) : M ProcessResult :=
  do results <-
    promiseAllAsync markMaterialsOrdered (processOrder userId overrideCode) orderIds ;;
  let successfulOrders := List.filter r_success results in
  let failedOrders := List.filter (fun r => negb (r_success r)) results in
  ret (mkResult (0 <? length successfulOrders)%nat
                (summaryMessage (length successfulOrders) (length failedOrders) overrideCode)
                None (Some c)).

Definition processMaterialOrder (orderIds : list string) (userId : string)
    (overrideCode overrideReason : option string) : M ProcessResult :=
  tryCatch
    (do duplicateCheck <- checkDuplicateOrders orderIds ;;
     if requiresOverride duplicateCheck && negb (truthy overrideCode) then
       ret (mkResult false (blockedMessage duplicateCheck) (Some true) (Some duplicateCheck))
     else
       do authorized <-
         (if requiresOverride duplicateCheck && truthy overrideCode then
            verifyManagementAuthorization
              (default "" overrideCode) userId
              (orElse overrideReason "Material ordering override")
          else ret true) ;;
       if negb authorized then
         ret (mkResult false "UNAUTHORIZED: Invalid management override code"
                       (Some true) (Some duplicateCheck))
       else processOrders orderIds userId overrideCode duplicateCheck)
    (fun _ =>
       ret (mkResult false "Material ordering failed due to system error"
                     None (Some failSafe))).

(** *** Status routes *)

Inductive Response :=
| Json (order : option Order)
| NotFound
| ServerError.

(** [req.session?.user?.id || 'system'] *)
Definition actor (sessionUser : option string) : string := orElse sessionUser "system".

(** [notificationService.sendStatusUpdate(completeOrder)] on a fresh
    [new NotificationService()].  The class has two methods,
    [sendNotification] and [processPendingNotifications], and none called
    [sendStatusUpdate]: the property reads [undefined] and calling it
    raises a TypeError, inside the handler's [try], before [.catch] is
    reached. *)
Definition sendStatusUpdate (order : Order) : M unit :=
  throw (TypeError "notificationService.sendStatusUpdate is not a function").

(** PATCH /api/orders/:id/status *)
Definition patchOrderStatus (orderId : string) (status : OrderStatus)
    (sessionUser : option string) : M Response :=
  tryCatch
    (do currentOrder <- getOrder orderId ;;
     match currentOrder with
     | None => ret NotFound
     | Some currentOrder =>
         do _ <- updateOrder orderId (mkPatch (Some status) None) ;;
         do _ <- createStatusHistory orderId (Some (order_status currentOrder)) status
                   (actor sessionUser) None ;;
         do completeOrder <- getOrder orderId ;;
         do _ <- match completeOrder with
                 | Some o => sendStatusUpdate o
                 | None => ret tt
                 end ;;
         ret (Json completeOrder)
     end)
    (fun _ => ret ServerError).

(** PATCH /api/orders/:id *)
Definition patchOrder (orderId : string) (updates : OrderPatch)
    (sessionUser : option string) : M Response :=
  tryCatch
    (do currentOrder <- getOrder orderId ;;
     match currentOrder with
     | None => ret NotFound
     | Some currentOrder =>
         do _ <- match patch_status updates with
                 | Some status =>
                     if bool_decide (status <> order_status currentOrder) then
                       createStatusHistory orderId (Some (order_status currentOrder))
                         status (actor sessionUser) None
                     else ret tt
                 | None => ret tt
                 end ;;
         do _ <- updateOrder orderId updates ;;
         do completeOrder <- getOrder orderId ;;
         ret (Json completeOrder)
     end)
    (fun _ => ret ServerError).

End Service.

(** ** The service as functions of the tables

    Auxiliary definitions for the statements below: what a run of the
    detector computes and which calls it makes, read off the tables. *)

Definition withCalls (s : Store) (cs : list Call) : Store :=
  mkStore (ordersT s) (statusHistoryT s) (materialOrderHistoryT s) (uuids s)
          (calls s ++ cs).

Section Outcome.

Variable env : Env.

(** The order lookups of a batch, as a function of the [orders] table. *)
Fixpoint lookupAll (ids : list string) (orders : list Order) : Result (list (option Order)) :=
  match ids with
  | [] => Ok []
  | id :: rest =>
      rbind (if getOrderThrows env id then Throw dbError
             else Ok (List.find (fun o => String.eqb (order_id o) id) orders))
            (fun o => rbind (lookupAll rest orders) (fun os => Ok (o :: os)))
  end.

(** The ids of the batch with a row among the recent ones. *)
Definition duplicatesIn (orderIds : list string)
    (recentOrders : list MaterialOrderAuditRecord) : list string :=
  List.filter (fun orderId =>
    existsb (fun order => String.eqb (mo_orderId order) orderId) recentOrders) orderIds.

(** Lines 65 to 86 of [checkDuplicateOrders]: the classification, once the
    recent rows and the order details are there. *)
Definition classify (orderIds : list string) (recentOrders : list MaterialOrderAuditRecord)
    (orderDetails : list (option Order)) : Result DuplicateOrderCheck :=
  let duplicateOrderIds := duplicatesIn orderIds recentOrders in
  rbind
    (if (0 <? length duplicateOrderIds)%nat then Ok (CRITICAL, true)
     else
       rbind (checkSimilarMaterials orderDetails recentOrders) (fun similar =>
         if similar then Ok (HIGH, true)
         else
           rbind (checkVendorOrderLimits orderDetails recentOrders) (fun limited =>
             if limited then Ok (MEDIUM, true) else Ok (LOW, false))))
    (fun risk =>
       Ok (mkCheck (0 <? length duplicateOrderIds)%nat
                   (List.filter (fun order =>
                      existsb (String.eqb (mo_orderId order)) duplicateOrderIds) recentOrders)
                   (snd risk) (fst risk))).

(** The outcome of the [try] block as a function of the tables. *)
Definition attempt (orderIds : list string) (s : Store) : Result DuplicateOrderCheck :=
  rbind (selectHistorySince env (cutoffTime env) (materialOrderHistoryT s)) (fun recentOrders =>
    rbind (lookupAll orderIds (ordersT s)) (classify orderIds recentOrders)).

Definition detectCalls (orderIds : list string) (s : Store) : list Call :=
  CallSelectHistory (cutoffTime env) ::
  match selectHistorySince env (cutoffTime env) (materialOrderHistoryT s) with
  | Ok _ => CallGetOrder <$> orderIds
  | Throw _ => []
  end.

(** The check that [checkDuplicateOrders] returns. *)
Definition detect (orderIds : list string) (s : Store) : DuplicateOrderCheck :=
  match attempt orderIds s with
  | Ok c => c
  | Throw _ => failSafe
  end.

(** The ids of a batch whose status update is accepted, those whose update
    is rejected, and those for which an audit row is written as well. *)
Definition succeededIds (orderIds : list string) : list string :=
  List.filter (fun id => negb (updateOrderThrows env id)) orderIds.

Definition failedIds (orderIds : list string) : list string :=
  List.filter (updateOrderThrows env) orderIds.

Definition loggedIds (orderIds : list string) : list string :=
  List.filter (fun id => negb (updateOrderThrows env id) &&
                         negb (insertMaterialOrderThrows env id)) orderIds.

(** The calls of step 4: the updates of the batch, then the audit inserts
    for the ids whose update was accepted. *)
Definition processCalls (orderIds : list string) : list Call :=
  (CallUpdateOrder <$> orderIds) ++ (CallInsertMaterialOrder <$> succeededIds orderIds).

(** The outcome of the update of step 4 for an id of the batch. *)
Definition updated (orderId : string) : Result unit :=
  if updateOrderThrows env orderId then Throw dbError else Ok tt.

(** The update of step 4 on one row. *)
Definition markOrdered (id : string) (o : Order) : Order :=
  if String.eqb (order_id o) id
  then applyPatch env (mkPatch (Some MATERIALS_ORDERED) None) o else o.

End Outcome.

(** A batch reaches step 4 when no override is required, or when the code
    supplied is the management code. *)
Definition reachesProcessing (c : DuplicateOrderCheck) (overrideCode : option string) : Prop :=
  requiresOverride c = false \/ overrideCode = Some MANAGEMENT_OVERRIDE_CODE.

(** The call to the override gate, made when an override is required and a
    code is supplied. *)
Definition gateCalls (c : DuplicateOrderCheck) (userId : string)
    (overrideCode overrideReason : option string) : list Call :=
  if requiresOverride c && truthy overrideCode
  then [CallVerifyAuthorization (default "" overrideCode) userId
          (orElse overrideReason "Material ordering override")]
  else [].

(** The outcome recorded for an order id in step 4. *)
Definition outcome (env : Env) (orderId : string) : OrderResult :=
  mkOrderResult orderId (negb (updateOrderThrows env orderId)).

Definition isGateCall (c : Call) : bool :=
  match c with
  | CallVerifyAuthorization _ _ _ => true
  | _ => false
  end.

Definition isReadCall (c : Call) : bool :=
  match c with
  | CallSelectHistory _ | CallGetOrder _ => true
  | _ => false
  end.

(** A row as [logMaterialOrder] writes it. *)
Definition loggedByService (r : MaterialOrderAuditRecord) : Prop :=
  exists env id orderId userId wasOverridden,
    r = auditRecord env id orderId userId wasOverridden.

(** ** Fixtures: a shop with two orders that share a frame code *)

Definition uuidOf (n : nat) : string := "uuid-" +:+ showNat n.

(** A database double that answers the recent-history query with [rows]. *)
Definition answering (rows : list MaterialOrderAuditRecord)
  : JSDate -> list MaterialOrderAuditRecord -> Result (list MaterialOrderAuditRecord) :=
  fun _ _ => Ok rows.

(** A database that answers the query with the rows of the table ordered
    in the 24 hours before [now], whatever cutoff it is handed. *)
Definition lastDay (now : Z)
  : JSDate -> list MaterialOrderAuditRecord -> Result (list MaterialOrderAuditRecord) :=
  fun _ rows =>
    Ok (List.filter (fun r => now - DUPLICATE_THRESHOLD_HOURS * msPerHour <=? mo_orderedAt r)
                    rows).

(** [cutoff <= t] for a cutoff date and a time value; a comparison with an
    invalid date holds for no time value. *)
Definition dateLe (cutoff : JSDate) (t : Z) : bool :=
  match cutoff with
  | ValidDate ms => ms <=? t
  | InvalidDate => false
  end.

(** Modelled from the spec: the [db] module is not in src.  A record store
    with query-by-filter that applies the filter [orderedAt >= cutoff] to
    every row of the table, for the cutoff it is handed. *)
Definition filtering
  : JSDate -> list MaterialOrderAuditRecord -> Result (list MaterialOrderAuditRecord) :=
  fun cutoff rows => Ok (List.filter (fun r => dateLe cutoff (mo_orderedAt r)) rows).

(** The same store behind a driver that refuses a date without a time
    value, as [Date.prototype.toISOString] does. *)
Definition strict
  : JSDate -> list MaterialOrderAuditRecord -> Result (list MaterialOrderAuditRecord) :=
  fun cutoff rows =>
    match cutoff with
    | ValidDate _ => filtering cutoff rows
    | InvalidDate => Throw (RangeError "Invalid time value")
    end.

(** The cutoff that the class constant [DUPLICATE_THRESHOLD_HOURS] gives at
    time [now]. *)
Definition staticCutoff (now : Z) : JSDate :=
  let cutoffTime := ValidDate now in
  setHours cutoffTime (js_sub (getHours cutoffTime) (Num DUPLICATE_THRESHOLD_HOURS)).

(** Persistence unavailable. *)
Definition unavailable
  : JSDate -> list MaterialOrderAuditRecord -> Result (list MaterialOrderAuditRecord) :=
  fun _ _ => Throw dbError.

Definition never : string -> bool := fun _ => false.

(** An environment whose statements all succeed. *)
Definition healthy (now : Z)
    (sel : JSDate -> list MaterialOrderAuditRecord -> Result (list MaterialOrderAuditRecord))
  : Env :=
  mkEnv now uuidOf sel never never never never.

Definition T0 : Z := 1700000000000.

Definition orderA : Order := mkOrder "A" ORDER_PROCESSED (Some "Frame: R123") 0.
Definition orderB : Order := mkOrder "B" ORDER_PROCESSED (Some "Frame: R123") 0.

Definition shop : Store := mkStore [orderA; orderB] [] [] 0 [].

(** The row that ordering materials for order A at [T0] leaves behind. *)
Definition rowA : MaterialOrderAuditRecord :=
  auditRecord (healthy T0 (lastDay T0)) "uuid-0" "A" "u1" false.

(** The shop one hour after materials were ordered for A. *)
Definition shopAfterA : Store :=
  snd (processMaterialOrder (healthy T0 (lastDay T0)) ["A"] "u1" None None shop).


(** ** Vocabulary for further properties *)

(** The vendors a signature can name, in the order they are pushed. *)
Definition knownVendors : list string :=
  ["Roma Moulding"; "Larson Juhl"; "Crescent"; "Guardian Glass"].

(** The text that precedes an item code of a vendor in the notes. *)
Definition marker (v : string) : string :=
  if String.eqb v "Roma Moulding" then "Frame: "
  else if String.eqb v "Larson Juhl" then "Frame: "
  else if String.eqb v "Crescent" then "Mat: "
  else "".

(** The set of vendor:item keys of a material list. *)
Definition keysOf (a : list Material) : list string := newSet (materialKey <$> a).

Fixpoint allDigits (s : string) : bool :=
  match s with
  | EmptyString => true
  | String c r => isDigit c && allDigits r
  end.

(** The vendor under which [checkVendorOrderLimits] counts a stored row. *)
Definition countedVendor (r : MaterialOrderAuditRecord) : string :=
  match parseDetails (mo_orderDetails r) with
  | Ok details => orElse (d_vendor details) "Unknown"
  | Throw _ => "Unknown"
  end.



Definition parses (r : MaterialOrderAuditRecord) : bool :=
  match parseDetails (mo_orderDetails r) with
  | Ok _ => true
  | Throw _ => false
  end.

Definition isWriteCall (c : Call) : bool :=
  match c with
  | CallUpdateOrder _ | CallCreateStatusHistory _ | CallInsertMaterialOrder _ => true
  | _ => false
  end.

Definition isHistoryCall (c : Call) : bool :=
  match c with
  | CallCreateStatusHistory _ => true
  | _ => false
  end.

(** The number of rows of [recent] counted under vendor [v]. *)
Definition countOf (v : string) (recent : list MaterialOrderAuditRecord) : nat :=
  length (List.filter (fun r => String.eqb (countedVendor r) v) recent).

(** Equality of the three tables of two stores. *)
Definition sameTables (s s' : Store) : Prop :=
  ordersT s' = ordersT s /\ statusHistoryT s' = statusHistoryT s /\
  materialOrderHistoryT s' = materialOrderHistoryT s.

(** ** Further operations: recent activity, workload metrics, basic alerts *)

(** [getRecentOrderingActivity(hours = 24)]: the rows ordered since the
    cutoff; [hours] is any number, [None] an omitted argument, and [zone]
    the offset of the server's local time.  There is no [try] here: a
    failed lookup is raised to the caller. *)
Definition getRecentOrderingActivity (env : Env) (zone : Z) (hours : option float)
  : M (list MaterialOrderAuditRecord) :=
  let hours := default 24%float hours in
  let cutoffTime := ValidDate (clock env) in
  let cutoffTime :=
    setHoursAt zone cutoffTime
      (integerPart (PrimFloat.sub (hourNumber (getHoursAt zone cutoffTime)) hours)) in
  selectRecentHistory env cutoffTime.

(** [statusCounts] is a plain object, [{}]: a read of a name it does not
    have itself falls through to [Object.prototype].  These are the names
    that object has. *)
Definition objectPrototypeKeys : list string :=
  ["constructor"; "hasOwnProperty"; "isPrototypeOf"; "propertyIsEnumerable";
   "toLocaleString"; "toString"; "valueOf"; "__proto__";
   "__defineGetter__"; "__defineSetter__"; "__lookupGetter__"; "__lookupSetter__"].

(** A property value of [statusCounts]: a count, or the string that [+ 1]
    makes of a value that is not a number; the text of that string is not
    modelled. *)
Inductive CountValue :=
| Count (n : nat)
| NotACount.

(** The entry of [statusCounts] for a status that [n] active orders have. *)
Definition statusEntry (status : string) (n : nat) : option CountValue :=
  if (n =? 0)%nat then None
  else if bool_decide (status ∈ objectPrototypeKeys) then
    (if String.eqb status "__proto__" then None else Some NotACount)
  else Some (Count n).

Section Workload.

(** The numbers of [getWorkloadMetrics] are floating-point; the
    operations on them are taken as they come: [num] with its zero, its
    addition, [x / n], [(a / b) * 100], the constant 100 and [x || 0]. *)
Variable num : Type.
Variables (zero hundred : num) (add : num -> num -> num).
Variable divideBy : num -> nat -> num.
Variable percentage : nat -> nat -> num.
Variable orZero : num -> num.

(** A row of [orders] as [getWorkloadMetrics] reads it; [w_onTime] stands
    for [!order.dueDate || new Date() <= order.dueDate]. *)
Record WorkloadRow := mkWorkloadRow {
  w_status : string;
  w_estimatedHours : num;
  w_onTime : bool
}.

Record WorkloadMetrics := mkWorkloadMetrics {
  totalOrders : nat;
  totalHours : num;
  averageComplexity : num;
  onTimePercentage : num;
  statusCounts : gmap string CountValue
}.

Definition isActive (order : WorkloadRow) : bool :=
  negb (String.eqb (w_status order) "MYSTERY_UNCLAIMED") &&
  negb (String.eqb (w_status order) "COMPLETED") &&
  negb (String.eqb (w_status order) "PICKED_UP").

(** [statusCounts[order.status] = (statusCounts[order.status] || 0) + 1].
    An own count is incremented and a name read for the first time gets 1,
    unless [Object.prototype] has it: the inherited function or object is
    truthy and [+ 1] makes a string of it, which is stored and from then on
    extended; under [__proto__] nothing is stored, since the setter of
    that name ignores a string. *)
Definition tally (counts : gmap string CountValue) (order : WorkloadRow)
  : gmap string CountValue :=
  let status := w_status order in
  match counts !! status with
  | Some (Count n) => <[status := Count (n + 1)]> counts
  | Some NotACount => <[status := NotACount]> counts
  | None =>
      if bool_decide (status ∈ objectPrototypeKeys) then
        if String.eqb status "__proto__" then counts
        else <[status := NotACount]> counts
      else <[status := Count (0 + 1)]> counts
  end.

(** [storage.getWorkloadMetrics()], given the answer of
    [db.select().from(orders)]. *)
Definition getWorkloadMetrics (answer : Result (list WorkloadRow)) : WorkloadMetrics :=
  match answer with
  | Ok allOrders =>
      let activeOrders := List.filter isActive allOrders in
      let totalOrders := length activeOrders in
      let totalHours :=
        foldl (fun sum order => add sum (orZero (w_estimatedHours order))) zero activeOrders in
      let averageComplexity := orZero (divideBy totalHours totalOrders) in
      let completedOrders :=
        List.filter (fun order => String.eqb (w_status order) "COMPLETED") activeOrders in
      let onTimeOrders := List.filter w_onTime completedOrders in
      let onTimePercentage :=
        if (0 <? length completedOrders)%nat
        then percentage (length onTimeOrders) (length completedOrders)
        else hundred in
      let statusCounts := foldl tally ∅ activeOrders in
      mkWorkloadMetrics totalOrders totalHours averageComplexity onTimePercentage statusCounts
  | Throw _ => mkWorkloadMetrics 0 zero zero hundred ∅
  end.

End Workload.

(** The statuses that [getWorkloadMetrics] leaves out. *)
Definition excludedStatuses : list string :=
  ["MYSTERY_UNCLAIMED"; "COMPLETED"; "PICKED_UP"].

(** An order as [generateBasicAlerts] reads it: [new Date(order.dueDate)]
    and the status. *)
Record DueOrder := mkDueOrder {
  due_date : JSDate;
  due_status : string
}.

Record Alert := mkAlert {
  alert_id : string;
  alert_type : string;
  alert_severity : string;
  alert_title : string;
  alert_message : string;
  alert_count : nat
}.

(** [s.replace(/-/g, '_')] *)
Fixpoint replaceHyphens (s : string) : string :=
  match s with
  | EmptyString => EmptyString
  | String c r => String (if Ascii.eqb c "-" then "_"%char else c) (replaceHyphens r)
  end.

(** The status of an order that is done: completed or picked up. *)
Definition isDone (status : string) : Prop :=
  status = "COMPLETED" \/ status = "PICKED_UP".

(** [d < now] for a date and a valid [now]; an invalid date compares false. *)
Definition dateBefore (d : JSDate) (now : Z) : bool :=
  match d with
  | ValidDate ms => ms <? now
  | InvalidDate => false
  end.

Definition isOverdue (now : Z) (order : DueOrder) : bool :=
  dateBefore (due_date order) now &&
  negb (existsb (String.eqb (due_status order)) ["COMPLETED"; "PICKED_UP"]).

(** [generateBasicAlerts(orders)], with the clock and the identifier that
    [randomUUID()] returns. *)
Definition generateBasicAlerts (now : Z) (uuid : string) (orders : list DueOrder)
  : list Alert :=
  let alerts := [] in
  let overdueOrders := List.filter (isOverdue now) orders in
  if (0 <? length overdueOrders)%nat then
    alerts ++
    [mkAlert ("overdue_" +:+ replaceHyphens uuid) "overdue" "high" "Overdue Orders"
             (showNat (length overdueOrders) +:+ " orders are past their due date")
             (length overdueOrders)]
  else alerts.

(** * Properties *)

(** ** Running the monad *)

Lemma withCalls_nil s : withCalls s [] = s.
Proof. destruct s; unfold withCalls; simpl. by rewrite app_nil_r. Qed.

Lemma withCalls_app s cs1 cs2 :
  withCalls (withCalls s cs1) cs2 = withCalls s (cs1 ++ cs2).
Proof. unfold withCalls; simpl. by rewrite app_assoc. Qed.

Ltac run := unfold bind, ret, throw, tryCatch, liftResult, record; simpl.

(** Project the fields of an explicit store or result, nothing more. *)
Ltac fields :=
  cbn [calls ordersT statusHistoryT materialOrderHistoryT uuids
       success message result_requiresOverride duplicateCheck fst snd].

Arguments processOrders : simpl never.
Arguments detectCalls : simpl never.

Section Detector.

Variable env : Env.

(** The cutoff that [checkDuplicateOrders] hands to the query is not a
    date: the threshold is read from the instance, where it is undefined. *)
Lemma cutoffTime_invalid : cutoffTime env = InvalidDate.
Proof. reflexivity. Qed.

Lemma getOrder_run id s :
  getOrder env id s
  = (if getOrderThrows env id then Throw dbError
     else Ok (List.find (fun o => String.eqb (order_id o) id) (ordersT s)),
     withCalls s [CallGetOrder id]).
Proof. unfold getOrder. run. by destruct (getOrderThrows env id). Qed.

Lemma promiseAll_getOrder ids s :
  promiseAll (getOrder env) ids s
  = (lookupAll env ids (ordersT s), withCalls s (CallGetOrder <$> ids)).
Proof.
  revert s. induction ids as [|id rest IH]; intros s; simpl.
  - by rewrite withCalls_nil.
  - rewrite getOrder_run, IH, withCalls_app. reflexivity.
Qed.

Lemma lookupAll_ok ids orders :
  (forall id, id ∈ ids -> getOrderThrows env id = false) ->
  lookupAll env ids orders
  = Ok ((fun id => List.find (fun o => String.eqb (order_id o) id) orders) <$> ids).
Proof.
  induction ids as [|id rest IH]; intros H; simpl; [done|].
  rewrite (H id) by set_solver. simpl.
  rewrite IH by (intros; apply H; set_solver). done.
Qed.

Lemma lookupAll_throws ids orders id :
  id ∈ ids -> getOrderThrows env id = true ->
  exists e, lookupAll env ids orders = Throw e.
Proof.
  induction ids as [|x rest IH]; intros Hin Hthrow; [set_solver|].
  simpl. destruct (getOrderThrows env x) eqn:Hx; simpl; [by eexists|].
  assert (id ∈ rest) as Hrest.
  { apply elem_of_cons in Hin as [->|]; [congruence|done]. }
  destruct (IH Hrest Hthrow) as [e ->]. simpl. by eexists.
Qed.

Lemma checkDuplicateOrdersBody_run orderIds s :
  checkDuplicateOrdersBody env orderIds s
  = (attempt env orderIds s, withCalls s (detectCalls env orderIds s)).
Proof.
  unfold checkDuplicateOrdersBody, attempt, detectCalls, selectRecentHistory.
  run.
  destruct (selectHistorySince env (cutoffTime env) (materialOrderHistoryT s))
    as [recent|e] eqn:Hsel; simpl; [|reflexivity].
  change (mkStore _ _ _ _ (calls s ++ [CallSelectHistory (cutoffTime env)]))
    with (withCalls s [CallSelectHistory (cutoffTime env)]).
  rewrite promiseAll_getOrder, withCalls_app. simpl.
  destruct (lookupAll env orderIds (ordersT s)) as [details|e]; simpl; [|reflexivity].
  unfold classify, duplicatesIn.
  match goal with |- context [rbind ?r _] => destruct r as [[risk req]|e] end;
    reflexivity.
Qed.

Lemma checkDuplicateOrders_run orderIds s :
  checkDuplicateOrders env orderIds s
  = (Ok (detect env orderIds s), withCalls s (detectCalls env orderIds s)).
Proof.
  unfold checkDuplicateOrders, tryCatch, detect.
  rewrite checkDuplicateOrdersBody_run.
  destruct (attempt env orderIds s); reflexivity.
Qed.

Lemma history_lookup_failure orderIds s e :
  selectHistorySince env (cutoffTime env) (materialOrderHistoryT s) = Throw e ->
  fst (checkDuplicateOrdersBody env orderIds s) = Throw e.
Proof.
  intros H. rewrite checkDuplicateOrdersBody_run. unfold attempt. by rewrite H.
Qed.

Lemma order_lookup_failure orderIds s recent id :
  selectHistorySince env (cutoffTime env) (materialOrderHistoryT s) = Ok recent ->
  id ∈ orderIds -> getOrderThrows env id = true ->
  exists e, fst (checkDuplicateOrdersBody env orderIds s) = Throw e.
Proof.
  intros Hsel Hin Hthrow. rewrite checkDuplicateOrdersBody_run. unfold attempt.
  rewrite Hsel. simpl.
  destruct (lookupAll_throws orderIds (ordersT s) id Hin Hthrow) as [e ->].
  by exists e.
Qed.

Lemma classify_invariant orderIds recent details c :
  classify orderIds recent details = Ok c ->
  (requiresOverride c = true <-> riskLevel c <> LOW) /\
  (isDuplicate c = true -> riskLevel c = CRITICAL).
Proof.
  unfold classify.
  destruct (0 <? length (duplicatesIn orderIds recent))%nat; simpl.
  - intros [= <-]; simpl. split; [split; [discriminate|done]|done].
  - destruct (checkSimilarMaterials details recent) as [[|]|]; simpl;
      try discriminate.
    + intros [= <-]; simpl. split; [split; [discriminate|done]|discriminate].
    + destruct (checkVendorOrderLimits details recent) as [[|]|]; simpl;
        try discriminate;
        intros [= <-]; simpl;
        (split; [split; [discriminate || (intros ? ?; discriminate)|done]|discriminate]).
Qed.

(** An id of the batch is a duplicate exactly when a recent row carries it. *)
Lemma elem_of_duplicatesIn orderIds recent id :
  id ∈ duplicatesIn orderIds recent <->
  id ∈ orderIds /\ exists r, r ∈ recent /\ mo_orderId r = id.
Proof.
  unfold duplicatesIn. rewrite !list_elem_of_In, filter_In, existsb_exists.
  split.
  - intros [Hin (r & Hr & Heq)]. split; [done|].
    exists r. rewrite list_elem_of_In. by apply String.eqb_eq in Heq.
  - intros [Hin (r & Hr & Heq)]. split; [done|].
    exists r. rewrite <- list_elem_of_In. by apply String.eqb_eq in Heq.
Qed.

Lemma classify_duplicate orderIds recent details :
  (exists r, r ∈ recent /\ mo_orderId r ∈ orderIds) ->
  exists c, classify orderIds recent details = Ok c /\
    isDuplicate c = true /\ riskLevel c = CRITICAL /\ requiresOverride c = true /\
    (forall r, r ∈ existingOrders c <-> r ∈ recent /\ mo_orderId r ∈ orderIds).
Proof.
  intros (r0 & Hr0 & Hid0). unfold classify.
  assert (mo_orderId r0 ∈ duplicatesIn orderIds recent) as Hdup.
  { apply elem_of_duplicatesIn. eauto. }
  assert ((0 <? length (duplicatesIn orderIds recent))%nat = true) as ->.
  { apply Nat.ltb_lt. destruct (duplicatesIn orderIds recent); [set_solver|simpl; lia]. }
  simpl. eexists. split; [reflexivity|]. simpl.
  split; [done|]. split; [done|]. split; [done|].
  intros r. rewrite (list_elem_of_In (List.filter _ _) r), filter_In, existsb_exists.
  rewrite <- list_elem_of_In.
  split.
  - intros [Hr (x & Hx & Heq)]. split; [done|].
    apply String.eqb_eq in Heq. rewrite Heq.
    apply list_elem_of_In, elem_of_duplicatesIn in Hx. tauto.
  - intros [Hr Hid]. split; [done|].
    exists (mo_orderId r). split; [|apply String.eqb_refl].
    apply list_elem_of_In, elem_of_duplicatesIn. eauto.
Qed.

End Detector.

(** ** Claims about [checkDuplicateOrders] *)

(** C2. If anything raises inside the [try] block of [checkDuplicateOrders]
    (the history lookup, an order lookup, the parsing of a stored
    snapshot), the check returned is exactly the fail-safe one: not a
    duplicate, no existing orders, override required, risk CRITICAL. *)
Theorem checkDuplicateOrders_error_fail_safe (env : Env) (orderIds : list string)
    (s : Store) (e : Exn) :
  fst (checkDuplicateOrdersBody env orderIds s) = Throw e ->
  fst (checkDuplicateOrders env orderIds s) = Ok (mkCheck false [] true CRITICAL).
Proof.
  intros H. unfold checkDuplicateOrders, tryCatch.
  destruct (checkDuplicateOrdersBody env orderIds s) as [[c|e'] s1]; simpl in *.
  - discriminate.
  - reflexivity.
Qed.

Lemma checkDuplicateOrders_error_fail_safe_witness :
  fst (checkDuplicateOrdersBody (healthy T0 unavailable) ["A"; "B"] shop) = Throw dbError /\
  fst (checkDuplicateOrders (healthy T0 unavailable) ["A"; "B"] shop)
  = Ok (mkCheck false [] true CRITICAL).
Proof.
  split; [reflexivity|].
  apply (checkDuplicateOrders_error_fail_safe (healthy T0 unavailable) ["A"; "B"] shop dbError).
  reflexivity.
Defined.

(** C10. Every check that [checkDuplicateOrders] returns, on the error path
    too, requires an override exactly when its risk level is not LOW, and
    is CRITICAL whenever it reports a duplicate. *)
Theorem checkDuplicateOrders_invariant (env : Env) (orderIds : list string) (s : Store) :
  exists c s', checkDuplicateOrders env orderIds s = (Ok c, s') /\
    (requiresOverride c = true <-> riskLevel c <> LOW) /\
    (isDuplicate c = true -> riskLevel c = CRITICAL).
Proof.
  rewrite checkDuplicateOrders_run. do 2 eexists. split; [reflexivity|].
  unfold detect, attempt.
  destruct (selectHistorySince env (cutoffTime env) (materialOrderHistoryT s))
    as [recent|e]; simpl.
  - destruct (lookupAll env orderIds (ordersT s)) as [details|e]; simpl.
    + destruct (classify orderIds recent details) as [c|e] eqn:Hc.
      * by apply classify_invariant in Hc.
      * simpl. split; [split; [discriminate|done]|discriminate].
    + split; [split; [discriminate|done]|discriminate].
  - split; [split; [discriminate|done]|discriminate].
Qed.

(** When the recent-history query and the order lookups succeed and a row
    that the query returns carries an order id of the batch, the check
    reports a duplicate, risk CRITICAL, override required, and its existing
    orders are the returned rows whose order id is in the batch. *)
Lemma returned_row_is_duplicate (env : Env) (orderIds : list string)
    (s : Store) (recent : list MaterialOrderAuditRecord) :
  selectHistorySince env (cutoffTime env) (materialOrderHistoryT s) = Ok recent ->
  (forall id, id ∈ orderIds -> getOrderThrows env id = false) ->
  (exists r, r ∈ recent /\ mo_orderId r ∈ orderIds) ->
  exists c s', checkDuplicateOrders env orderIds s = (Ok c, s') /\
    isDuplicate c = true /\ riskLevel c = CRITICAL /\ requiresOverride c = true /\
    (forall r, r ∈ existingOrders c <-> r ∈ recent /\ mo_orderId r ∈ orderIds).
Proof.
  intros Hsel Hget Hdup.
  rewrite checkDuplicateOrders_run. unfold detect, attempt.
  rewrite Hsel. simpl. rewrite (lookupAll_ok env) by done. simpl.
  destruct (classify_duplicate orderIds recent
              ((fun id => List.find (fun o => String.eqb (order_id o) id) (ordersT s))
                 <$> orderIds) Hdup) as (c & -> & Hc).
  by eauto.
Qed.

(** No row is at or after an invalid cutoff. *)
Lemma filtering_invalid rows : filtering InvalidDate rows = Ok [].
Proof.
  unfold filtering. f_equal. induction rows as [|r rest IH]; [done|exact IH].
Qed.

(** The check when the query yields no row and the order lookups succeed. *)
Lemma detect_no_recent_rows (env : Env) (orderIds : list string) (s : Store) :
  selectHistorySince env (cutoffTime env) (materialOrderHistoryT s) = Ok [] ->
  (forall id, id ∈ orderIds -> getOrderThrows env id = false) ->
  detect env orderIds s = mkCheck false [] false LOW.
Proof.
  intros Hsel Hget. unfold detect, attempt.
  rewrite Hsel. simpl. rewrite (lookupAll_ok env) by done. simpl.
  unfold classify.
  assert (duplicatesIn orderIds [] = []) as ->.
  { unfold duplicatesIn. clear. induction orderIds; simpl; [done|]. apply IHorderIds. }
  simpl.
  assert (forall details, checkSimilarMaterials details [] = Ok false) as ->.
  { induction details as [|[o|] rest IH]; simpl; done. }
  simpl. unfold checkVendorOrderLimits. simpl.
  assert (forall details, anyOverLimit ∅ details = false) as ->; [|done].
  induction details as [|[o|] rest IH]; simpl; [done| |done].
  rewrite IH.
  destruct (existsb _ _) eqn:Hex; [|done].
  apply existsb_exists in Hex as (v & _ & Hv). unfold overLimit in Hv.
  by rewrite lookup_empty in Hv.
Qed.

(** On every batch and every table, a store that finds no row at or after
    the invalid cutoff, or that refuses it, makes the check report no
    duplicate: the exact-duplicate branch is never taken. *)
Lemma invalid_cutoff_no_duplicate (env : Env) (orderIds : list string) (s : Store) :
  selectHistorySince env InvalidDate (materialOrderHistoryT s) = Ok [] \/
  (exists e, selectHistorySince env InvalidDate (materialOrderHistoryT s) = Throw e) ->
  exists c, fst (checkDuplicateOrders env orderIds s) = Ok c /\
    isDuplicate c = false /\ existingOrders c = [].
Proof.
  intros Hsel. rewrite checkDuplicateOrders_run. eexists. split; [reflexivity|].
  unfold detect, attempt. rewrite cutoffTime_invalid.
  destruct Hsel as [->|[e ->]]; simpl; [|done].
  destruct (lookupAll env orderIds (ordersT s)) as [details|e]; simpl; [|done].
  unfold classify.
  assert (duplicatesIn orderIds [] = []) as ->.
  { unfold duplicatesIn. clear. induction orderIds; simpl; [done|]. apply IHorderIds. }
  simpl.
  destruct (checkSimilarMaterials details []) as [[|]|]; simpl; try done.
  unfold checkVendorOrderLimits. simpl. by destruct (anyOverLimit ∅ details).
Qed.

(** So on a store that applies the filter, or refuses an invalid date, no
    batch is ever reported as a duplicate, whatever the audit table holds. *)
Lemma filtering_never_duplicate (env : Env) (orderIds : list string) (s : Store) :
  selectHistorySince env = filtering \/ selectHistorySince env = strict ->
  exists c, fst (checkDuplicateOrders env orderIds s) = Ok c /\
    isDuplicate c = false /\ existingOrders c = [].
Proof.
  intros Hstore. apply invalid_cutoff_no_duplicate.
  destruct Hstore as [-> | ->]; [left; apply filtering_invalid|right; by eexists].
Qed.

(** Had the cutoff been computed from the class constant, the store would
    have returned the row and the check would have reported the duplicate. *)
Lemma static_threshold_would_report :
  let now := T0 + msPerHour in
  staticCutoff now = ValidDate (now - 24 * msPerHour) /\
  filtering (staticCutoff now) (materialOrderHistoryT shopAfterA) = Ok [rowA] /\
  fst (checkDuplicateOrders (healthy now (fun _ => filtering (staticCutoff now)))
                            ["A"] shopAfterA)
  = Ok (mkCheck true [rowA] true CRITICAL).
Proof. repeat split; vm_compute; reflexivity. Qed.

(** C4, on the code. Materials are ordered for order A at [T0], which
    leaves an audit row for A ordered at [T0]; one hour later
    [checkDuplicateOrders] is asked about the batch [A].  The row lies
    within the last 24 hours, yet the cutoff handed to the query is an
    invalid date, because the threshold is read from the instance while it
    is a static member of the class.  A store that applies the filter
    finds no row at or after it, and the check comes back LOW, not a
    duplicate; a store that refuses the invalid date sends the check to its
    catch block, CRITICAL but still not a duplicate, with no existing
    orders. *)
Theorem recorded_order_not_reported :
  let now := T0 + msPerHour in
  (materialOrderHistoryT shopAfterA = [rowA] /\ mo_orderId rowA = "A" /\
   now - 24 * msPerHour <= mo_orderedAt rowA <= now) /\
  cutoffTime (healthy now filtering) = InvalidDate /\
  checkDuplicateOrders (healthy now filtering) ["A"] shopAfterA
  = (Ok (mkCheck false [] false LOW),
     withCalls shopAfterA [CallSelectHistory InvalidDate; CallGetOrder "A"]) /\
  checkDuplicateOrders (healthy now strict) ["A"] shopAfterA
  = (Ok (mkCheck false [] true CRITICAL),
     withCalls shopAfterA [CallSelectHistory InvalidDate]).
Proof.
  cbv zeta. split; [|split; [|split]].
  - split; [reflexivity|]. split; [reflexivity|]. vm_compute. split; discriminate.
  - reflexivity.
  - vm_compute. reflexivity.
  - vm_compute. reflexivity.
Qed.

(** ** Similar materials and the service's own audit rows *)

Lemma calculateMaterialSimilarity_no_materials materials1 :
  calculateMaterialSimilarity materials1 [] = 0%Q.
Proof.
  unfold calculateMaterialSimilarity. simpl.
  by destruct (length materials1 =? 0)%nat.
Qed.

(** Identical single-vendor signatures are fully similar. *)
Lemma calculateMaterialSimilarity_same_frame :
  calculateMaterialSimilarity [mkMaterial "Roma Moulding" "R123"]
                              [mkMaterial "Roma Moulding" "R123"] = 1%Q
  /\ exceeds80 1 = true.
Proof. split; reflexivity. Qed.

(** A row written by [logMaterialOrder] stores no material list, so no
    signature is similar to it. *)
Lemma similarToRecent_own_rows newOrderMaterials recent :
  Forall loggedByService recent ->
  similarToRecent newOrderMaterials recent = Ok false.
Proof.
  induction 1 as [|r rest (env & id & orderId & userId & b & ->) _ IH]; simpl; [done|].
  by rewrite calculateMaterialSimilarity_no_materials.
Qed.

Lemma checkSimilarMaterials_own_rows newOrders recent :
  Forall loggedByService recent ->
  checkSimilarMaterials newOrders recent = Ok false.
Proof.
  intros Hown. induction newOrders as [|[o|] rest IH]; simpl; [done| |done].
  by rewrite similarToRecent_own_rows.
Qed.

(** Whatever the database answers from a table that only the service has
    written to, the detector never reports HIGH. *)
Lemma own_history_never_high (env : Env) (orderIds : list string) (s : Store) :
  Forall loggedByService (materialOrderHistoryT s) ->
  (forall rows, selectHistorySince env (cutoffTime env) (materialOrderHistoryT s) = Ok rows ->
                rows ⊆ materialOrderHistoryT s) ->
  riskLevel (detect env orderIds s) <> HIGH.
Proof.
  intros Hown Hsub. unfold detect, attempt.
  destruct (selectHistorySince env (cutoffTime env) (materialOrderHistoryT s))
    as [recent|e] eqn:Hsel; simpl; [|discriminate].
  destruct (lookupAll env orderIds (ordersT s)) as [details|e]; simpl; [|discriminate].
  unfold classify.
  destruct (0 <? length (duplicatesIn orderIds recent))%nat; simpl; [discriminate|].
  rewrite checkSimilarMaterials_own_rows.
  - simpl. destruct (checkVendorOrderLimits details recent) as [[|]|]; simpl; discriminate.
  - apply Forall_forall. intros r Hr.
    eapply Forall_forall in Hown; [done|]. by apply (Hsub recent).
Qed.

(** Had the stored snapshot carried the material list, the same check
    would have come back HIGH. *)
Lemma stored_materials_would_be_high :
  let rowWithMaterials :=
    mkAudit "uuid-0" "A" "u1" T0 false
            (JsonText (mkDetails (Some T0) (Some "u1") (Some false)
                                 (Some [mkMaterial "Roma Moulding" "R123"]) None)) in
  fst (checkDuplicateOrders (healthy (T0 + msPerHour) (answering [rowWithMaterials]))
                            ["B"] shopAfterA)
  = Ok (mkCheck false [] true HIGH).
Proof. vm_compute. reflexivity. Qed.

(** C5, on the code. Materials are ordered for order A at [T0]; one hour
    later order B, which has the same frame code R123 in its notes, is
    checked against the audit row this left behind. The row stores no
    material list, the similarity is 0, and the check comes back LOW with
    no override required. *)
Theorem same_frame_code_one_hour_later :
  materialOrderHistoryT shopAfterA = [rowA] /\
  extractMaterialsFromNotes "Frame: R123" = [mkMaterial "Roma Moulding" "R123"] /\
  similarToRecent [mkMaterial "Roma Moulding" "R123"] [rowA] = Ok false /\
  fst (checkDuplicateOrders (healthy (T0 + msPerHour) (lastDay (T0 + msPerHour)))
                            ["B"] shopAfterA)
  = Ok (mkCheck false [] false LOW).
Proof. repeat split; vm_compute; reflexivity. Qed.

(** ** Running the orchestrator *)

Section Orchestrator.

Variable env : Env.

Implicit Types (s : Store) (ids orderIds : list string) (userId : string)
  (overrideCode overrideReason : option string).

Lemma truthy_bool overrideCode :
  (if truthy overrideCode then true else false) = truthy overrideCode.
Proof. by destruct (truthy overrideCode). Qed.

Lemma markMaterialsOrdered_run id s :
  markMaterialsOrdered env id s =
  (updated env id,
   if updateOrderThrows env id then withCalls s [CallUpdateOrder id]
   else mkStore (markOrdered env id <$> ordersT s) (statusHistoryT s)
                (materialOrderHistoryT s) (uuids s) (calls s ++ [CallUpdateOrder id])).
Proof.
  unfold markMaterialsOrdered, updateOrder, updated, markOrdered. run.
  by destruct (updateOrderThrows env id).
Qed.

(** Step 4, first part: every callback up to its first [await]. *)
Lemma promiseAll_started ids : forall s,
  promiseAll (fun x => do r <- settled (markMaterialsOrdered env x) ;; ret (x, r)) ids s
  = (Ok ((fun id => (id, updated env id)) <$> ids),
     mkStore (foldl (fun os id => markOrdered env id <$> os) (ordersT s)
                    (succeededIds env ids))
             (statusHistoryT s) (materialOrderHistoryT s) (uuids s)
             (calls s ++ (CallUpdateOrder <$> ids))).
Proof.
  induction ids as [|id rest IH]; intros s.
  - simpl. unfold ret. rewrite app_nil_r. by destruct s.
  - cbn [promiseAll]. unfold bind at 1, settled at 1, ret at 1.
    rewrite markMaterialsOrdered_run, IH.
    unfold succeededIds. cbn [List.filter fmap list_fmap rbind].
    destruct (updateOrderThrows env id); cbn [negb foldl]; unfold withCalls; fields;
      by rewrite <- app_assoc.
Qed.

Lemma processOrder_run userId overrideCode id s :
  processOrder env userId overrideCode id (updated env id) s =
  if updateOrderThrows env id then (Ok (outcome env id), s)
  else
    (Ok (outcome env id),
     mkStore (ordersT s) (statusHistoryT s)
             (materialOrderHistoryT s ++
                (if insertMaterialOrderThrows env id then []
                 else [auditRecord env (randomUUID env (uuids s)) id userId
                         (truthy overrideCode)]))
             (S (uuids s))
             (calls s ++ [CallInsertMaterialOrder id])).
Proof.
  unfold processOrder, updated, logMaterialOrder, insertMaterialOrder, freshUUID, outcome.
  run. rewrite truthy_bool.
  destruct (updateOrderThrows env id); simpl; [reflexivity|].
  destruct (insertMaterialOrderThrows env id); simpl;
    rewrite ?app_nil_r; reflexivity.
Qed.

(** Step 4, second part: the callbacks from their first [await] on. *)
Lemma promiseAll_resumed userId overrideCode ids : forall s,
  exists added n,
    promiseAll (fun xr => processOrder env userId overrideCode (fst xr) (snd xr))
               ((fun id => (id, updated env id)) <$> ids) s
    = (Ok (outcome env <$> ids),
       mkStore (ordersT s) (statusHistoryT s) (materialOrderHistoryT s ++ added)
               (uuids s + n)%nat
               (calls s ++ (CallInsertMaterialOrder <$> succeededIds env ids)))
    /\ mo_orderId <$> added = loggedIds env ids
    /\ Forall (fun r => mo_wasOverridden r = truthy overrideCode /\
                        mo_orderedBy r = userId /\ loggedByService r) added.
Proof.
  induction ids as [|id rest IH]; intros s.
  - exists [], 0%nat. simpl. unfold ret.
    rewrite !app_nil_r, Nat.add_0_r. by destruct s.
  - cbn [promiseAll fmap list_fmap fst snd]. rewrite processOrder_run.
    unfold succeededIds, loggedIds. cbn [List.filter].
    destruct (updateOrderThrows env id) eqn:Hupd; cbn [negb andb].
    + destruct (IH s) as (added & n & -> & Hids & Hall).
      exists added, n. by repeat split.
    + match goal with |- context [promiseAll _ _ ?s1] =>
        destruct (IH s1) as (added & n & -> & Hids & Hall) end.
      fields. cbn [rbind fmap list_fmap].
      destruct (insertMaterialOrderThrows env id) eqn:Hins; cbn [negb].
      * exists added, (S n). rewrite app_nil_r, <- app_assoc, Nat.add_succ_r.
        by repeat split.
      * eexists (_ :: added), (S n). rewrite <- !app_assoc, Nat.add_succ_r.
        split; [reflexivity|]. split; [simpl; f_equal; exact Hids|].
        constructor; [|done]. simpl. repeat split. by repeat eexists.
Qed.

(** Step 4 over a batch: the outcomes, and the store it leaves. *)
Lemma promiseAll_processOrder userId overrideCode ids s :
  exists added n,
    promiseAllAsync (markMaterialsOrdered env) (processOrder env userId overrideCode) ids s
    = (Ok (outcome env <$> ids),
       mkStore (foldl (fun os id => markOrdered env id <$> os) (ordersT s)
                      (succeededIds env ids))
               (statusHistoryT s) (materialOrderHistoryT s ++ added)
               (uuids s + n)%nat (calls s ++ processCalls env ids))
    /\ mo_orderId <$> added = loggedIds env ids
    /\ Forall (fun r => mo_wasOverridden r = truthy overrideCode /\
                        mo_orderedBy r = userId /\ loggedByService r) added.
Proof.
  unfold promiseAllAsync, bind at 1. rewrite promiseAll_started.
  match goal with |- context [promiseAll _ _ ?s1] =>
    destruct (promiseAll_resumed userId overrideCode ids s1)
      as (added & n & -> & Hids & Hall) end.
  exists added, n. fields. unfold processCalls. rewrite <- app_assoc. by repeat split.
Qed.

Lemma length_filter_outcome ids :
  length (List.filter r_success (outcome env <$> ids)) = length (succeededIds env ids) /\
  length (List.filter (fun r => negb (r_success r)) (outcome env <$> ids))
  = length (failedIds env ids).
Proof.
  unfold succeededIds, failedIds.
  induction ids as [|id rest [IH1 IH2]]; simpl; [done|].
  destruct (updateOrderThrows env id); simpl.
  - split; [exact IH1|f_equal; exact IH2].
  - split; [f_equal; exact IH1|exact IH2].
Qed.

Lemma succeeded_failed_length ids :
  (length (succeededIds env ids) + length (failedIds env ids) = length ids)%nat.
Proof.
  unfold succeededIds, failedIds.
  induction ids as [|id rest IH]; simpl; [done|].
  destruct (updateOrderThrows env id); simpl; lia.
Qed.

Lemma processOrders_run ids userId overrideCode c s :
  exists added n,
    processOrders env ids userId overrideCode c s
    = (Ok (mkResult (0 <? length (succeededIds env ids))%nat
                    (summaryMessage (length (succeededIds env ids))
                                    (length (failedIds env ids)) overrideCode)
                    None (Some c)),
       mkStore (foldl (fun os id => markOrdered env id <$> os) (ordersT s)
                      (succeededIds env ids))
               (statusHistoryT s) (materialOrderHistoryT s ++ added)
               (uuids s + n)%nat (calls s ++ processCalls env ids))
    /\ mo_orderId <$> added = loggedIds env ids
    /\ Forall (fun r => mo_wasOverridden r = truthy overrideCode /\
                        mo_orderedBy r = userId /\ loggedByService r) added.
Proof.
  destruct (promiseAll_processOrder userId overrideCode ids s)
    as (added & n & Hrun & Hids & Hall).
  exists added, n. split; [|done].
  unfold processOrders, bind. rewrite Hrun. unfold ret.
  destruct (length_filter_outcome ids) as [-> ->]. reflexivity.
Qed.

Lemma verifyManagementAuthorization_run code userId reason s :
  verifyManagementAuthorization code userId reason s
  = (Ok (String.eqb code MANAGEMENT_OVERRIDE_CODE),
     withCalls s [CallVerifyAuthorization code userId reason]).
Proof.
  unfold verifyManagementAuthorization, logOverrideAttempt. run.
  by destruct (String.eqb code MANAGEMENT_OVERRIDE_CODE).
Qed.

(** Step 2: override required, no code. *)
Lemma processMaterialOrder_blocked ids userId overrideCode overrideReason s :
  requiresOverride (detect env ids s) = true ->
  truthy overrideCode = false ->
  processMaterialOrder env ids userId overrideCode overrideReason s
  = (Ok (mkResult false (blockedMessage (detect env ids s)) (Some true)
                  (Some (detect env ids s))),
     withCalls s (detectCalls env ids s)).
Proof.
  intros Hreq Hcode. unfold processMaterialOrder, tryCatch, bind.
  rewrite checkDuplicateOrders_run, Hreq, Hcode. reflexivity.
Qed.

(** Step 3: override required, wrong code. *)
Lemma processMaterialOrder_unauthorized ids userId code overrideReason s :
  requiresOverride (detect env ids s) = true ->
  truthy (Some code) = true ->
  code <> MANAGEMENT_OVERRIDE_CODE ->
  processMaterialOrder env ids userId (Some code) overrideReason s
  = (Ok (mkResult false "UNAUTHORIZED: Invalid management override code" (Some true)
                  (Some (detect env ids s))),
     withCalls s (detectCalls env ids s ++
                  gateCalls (detect env ids s) userId (Some code) overrideReason)).
Proof.
  intros Hreq Hcode Hne. unfold processMaterialOrder, tryCatch, bind, gateCalls.
  rewrite checkDuplicateOrders_run, Hreq, Hcode. simpl.
  rewrite verifyManagementAuthorization_run, withCalls_app.
  apply String.eqb_neq in Hne. rewrite Hne. reflexivity.
Qed.

(** Step 4 is reached: the summary, and the store the call leaves. *)
Lemma processMaterialOrder_processing ids userId overrideCode overrideReason s :
  reachesProcessing (detect env ids s) overrideCode ->
  exists added n,
    processMaterialOrder env ids userId overrideCode overrideReason s
    = (Ok (mkResult (0 <? length (succeededIds env ids))%nat
                    (summaryMessage (length (succeededIds env ids))
                                    (length (failedIds env ids)) overrideCode)
                    None (Some (detect env ids s))),
       mkStore (foldl (fun os id => markOrdered env id <$> os) (ordersT s)
                      (succeededIds env ids))
               (statusHistoryT s) (materialOrderHistoryT s ++ added)
               (uuids s + n)%nat
               (calls s ++ detectCalls env ids s ++
                gateCalls (detect env ids s) userId overrideCode overrideReason ++
                processCalls env ids))
    /\ mo_orderId <$> added = loggedIds env ids
    /\ Forall (fun r => mo_wasOverridden r = truthy overrideCode /\
                        mo_orderedBy r = userId /\ loggedByService r) added.
Proof.
  intros Hreach.
  unfold processMaterialOrder, tryCatch, bind, gateCalls.
  rewrite checkDuplicateOrders_run.
  assert (requiresOverride (detect env ids s) && negb (truthy overrideCode) = false) as ->.
  { destruct Hreach as [->| ->]; [done|]. by rewrite andb_false_r. }
  destruct (requiresOverride (detect env ids s) && truthy overrideCode) eqn:Hgate.
  - assert (overrideCode = Some MANAGEMENT_OVERRIDE_CODE) as ->.
    { destruct Hreach as [Hreq|]; [|done]. by rewrite Hreq in Hgate. }
    simpl.
    match goal with |- context [processOrders env ids userId ?code ?c ?s1] =>
      destruct (processOrders_run ids userId code c s1) as (added & n & -> & Hids & Hall) end.
    exists added, n. simpl. rewrite <- !app_assoc. by repeat split.
  - unfold ret. simpl.
    match goal with |- context [processOrders env ids userId ?code ?c ?s1] =>
      destruct (processOrders_run ids userId code c s1) as (added & n & -> & Hids & Hall) end.
    exists added, n. simpl. rewrite <- !app_assoc. by repeat split.
Qed.

(** The orders table after step 4. *)
Lemma foldl_markOrdered okIds : forall orders : list Order,
  foldl (fun os id => markOrdered env id <$> os) orders okIds
  = (fun o => foldl (fun o id => markOrdered env id o) o okIds) <$> orders.
Proof.
  induction okIds as [|id rest IH]; intros orders; simpl.
  - by rewrite list_fmap_id.
  - rewrite IH, <- list_fmap_compose. reflexivity.
Qed.

Lemma markOrdered_id id o : order_id (markOrdered env id o) = order_id o.
Proof. unfold markOrdered. by destruct (String.eqb (order_id o) id). Qed.

Lemma markOrdered_all_id okIds : forall o,
  order_id (foldl (fun o id => markOrdered env id o) o okIds) = order_id o.
Proof.
  induction okIds as [|id rest IH]; intros o; simpl; [done|].
  by rewrite IH, markOrdered_id.
Qed.

Lemma markOrdered_all_keeps okIds : forall o,
  order_status o = MATERIALS_ORDERED ->
  order_status (foldl (fun o id => markOrdered env id o) o okIds) = MATERIALS_ORDERED.
Proof.
  induction okIds as [|id rest IH]; intros o Ho; simpl; [done|].
  apply IH. unfold markOrdered. by destruct (String.eqb (order_id o) id).
Qed.

Lemma markOrdered_all_status okIds : forall o,
  order_id o ∈ okIds ->
  order_status (foldl (fun o id => markOrdered env id o) o okIds) = MATERIALS_ORDERED.
Proof.
  induction okIds as [|id rest IH]; intros o Hin; simpl; [set_solver|].
  destruct (String.eqb (order_id o) id) eqn:Heq.
  - apply markOrdered_all_keeps. unfold markOrdered. by rewrite Heq.
  - apply IH. rewrite markOrdered_id.
    apply String.eqb_neq in Heq.
    apply elem_of_cons in Hin as [Hx|Hx]; [congruence|done].
Qed.

Lemma markOrdered_all_other okIds : forall o,
  order_id o ∉ okIds ->
  foldl (fun o id => markOrdered env id o) o okIds = o.
Proof.
  induction okIds as [|id rest IH]; intros o Hin; simpl; [done|].
  assert (String.eqb (order_id o) id = false) as Heq.
  { apply String.eqb_neq. set_solver. }
  unfold markOrdered at 2. rewrite Heq. apply IH. set_solver.
Qed.

Lemma elem_of_succeededIds ids id :
  id ∈ succeededIds env ids <-> id ∈ ids /\ updateOrderThrows env id = false.
Proof.
  unfold succeededIds. rewrite !list_elem_of_In, filter_In, negb_true_iff. done.
Qed.

End Orchestrator.

(** ** Claims about [processMaterialOrder] *)

Lemma detectCalls_reads env ids s :
  Forall (fun k => isReadCall k = true) (detectCalls env ids s).
Proof.
  unfold detectCalls. constructor; [done|].
  destruct (selectHistorySince env (cutoffTime env) (materialOrderHistoryT s)); [|done].
  induction ids; by constructor.
Qed.

Lemma detectCalls_no_gate env ids s :
  Forall (fun k => isGateCall k = false) (detectCalls env ids s).
Proof.
  eapply Forall_impl; [apply detectCalls_reads|]. by intros [].
Qed.

Lemma processCalls_no_gate env ids :
  Forall (fun k => isGateCall k = false) (processCalls env ids).
Proof.
  unfold processCalls. apply Forall_app. split; apply Forall_fmap, Forall_true; done.
Qed.

Lemma check_is_detect env ids s c :
  fst (checkDuplicateOrders env ids s) = Ok c -> c = detect env ids s.
Proof. rewrite checkDuplicateOrders_run. simpl. congruence. Qed.

(** C3. When the check requires an override and no override code is
    supplied, [processMaterialOrder] answers [success = false],
    [requiresOverride = true] and the check it computed; the orders, the
    status history and the audit table are what they were, and the only
    calls made are the reads of the check. *)
Theorem processMaterialOrder_rejects_without_code (env : Env) (orderIds : list string)
    (userId : string) (overrideCode overrideReason : option string) (s : Store)
    (c : DuplicateOrderCheck) :
  fst (checkDuplicateOrders env orderIds s) = Ok c ->
  requiresOverride c = true ->
  truthy overrideCode = false ->
  exists s' reads,
    processMaterialOrder env orderIds userId overrideCode overrideReason s
    = (Ok (mkResult false (blockedMessage c) (Some true) (Some c)), s') /\
    ordersT s' = ordersT s /\
    statusHistoryT s' = statusHistoryT s /\
    materialOrderHistoryT s' = materialOrderHistoryT s /\
    calls s' = calls s ++ reads /\ Forall (fun k => isReadCall k = true) reads.
Proof.
  intros Hc Hreq Hcode. apply check_is_detect in Hc. subst c.
  rewrite processMaterialOrder_blocked by done.
  do 2 eexists. split; [reflexivity|]. simpl.
  repeat split. apply detectCalls_reads.
Qed.

Lemma processMaterialOrder_rejects_without_code_witness :
  exists s' reads,
    processMaterialOrder (healthy T0 (answering [rowA])) ["A"] "u1" None None shop
    = (Ok (mkResult false "MANAGEMENT OVERRIDE REQUIRED: CRITICAL risk detected. Duplicate orders found."
                    (Some true) (Some (mkCheck true [rowA] true CRITICAL))), s') /\
    ordersT s' = ordersT shop /\
    statusHistoryT s' = statusHistoryT shop /\
    materialOrderHistoryT s' = materialOrderHistoryT shop /\
    calls s' = calls shop ++ reads /\ Forall (fun k => isReadCall k = true) reads.
Proof.
  apply (processMaterialOrder_rejects_without_code
           (healthy T0 (answering [rowA])) ["A"] "u1" None None shop
           (mkCheck true [rowA] true CRITICAL)); reflexivity.
Defined.

(** C8. For a batch of N ids that reaches step 4, of which M are processed
    and F = N - M fail, the result has [success = true] exactly when M > 0,
    and its message gives M, gives F when F > 0, and ends with the note
    that a management override was used when an override code was
    supplied. *)
Theorem processMaterialOrder_summary (env : Env) (orderIds : list string)
    (userId : string) (overrideCode overrideReason : option string) (s : Store)
    (c : DuplicateOrderCheck) :
  fst (checkDuplicateOrders env orderIds s) = Ok c ->
  reachesProcessing c overrideCode ->
  let M := length (succeededIds env orderIds) in
  let F := length (failedIds env orderIds) in
  (M + F = length orderIds)%nat /\
  exists r,
    fst (processMaterialOrder env orderIds userId overrideCode overrideReason s) = Ok r /\
    (success r = true <-> (0 < M)%nat) /\
    message r =
      "Successfully ordered materials for " +:+ showNat M +:+ " orders" +:+
      (if (0 <? F)%nat then ", " +:+ showNat F +:+ " failed" else "") +:+
      (if truthy overrideCode then " (Management Override Used)" else "").
Proof.
  intros Hc Hreach M F. apply check_is_detect in Hc. subst c.
  split; [apply succeeded_failed_length|].
  destruct (processMaterialOrder_processing env orderIds userId overrideCode
              overrideReason s Hreach) as (added & n & -> & _).
  eexists. split; [reflexivity|]. simpl. split; [|reflexivity].
  apply Nat.ltb_lt.
Qed.

(** An environment in which the update of order "zz" is rejected. *)
Lemma processMaterialOrder_summary_witness :
  let env := mkEnv T0 uuidOf (answering [rowA]) never (String.eqb "zz") never never in
  (1 + 1 = 2)%nat /\
  exists r,
    fst (processMaterialOrder env ["A"; "zz"] "u1" (Some MANAGEMENT_OVERRIDE_CODE) None shop)
    = Ok r /\
    (success r = true <-> (0 < 1)%nat) /\
    message r =
      "Successfully ordered materials for 1 orders, 1 failed (Management Override Used)".
Proof.
  apply (processMaterialOrder_summary
           (mkEnv T0 uuidOf (answering [rowA]) never (String.eqb "zz") never never)
           ["A"; "zz"] "u1" (Some MANAGEMENT_OVERRIDE_CODE) None shop
           (mkCheck true [rowA] true CRITICAL)).
  - reflexivity.
  - by right.
Defined.

(** C9. When the check requires no override and an override code is
    supplied all the same, the gate is not called (so any code will do)
    and the batch is processed: the calls made are the reads of the check,
    then the update of every id of the batch, then the audit insert for
    every id whose update was accepted; every order of the store whose id
    is in the batch and whose update is accepted ends with status
    MATERIALS_ORDERED; and every audit row written for the batch has
    [wasOverridden = true]. *)
Theorem processMaterialOrder_unneeded_code (env : Env) (orderIds : list string)
    (userId : string) (overrideCode overrideReason : option string) (s : Store)
    (c : DuplicateOrderCheck) :
  fst (checkDuplicateOrders env orderIds s) = Ok c ->
  requiresOverride c = false ->
  truthy overrideCode = true ->
  exists r s' added,
    processMaterialOrder env orderIds userId overrideCode overrideReason s = (Ok r, s') /\
    calls s' = calls s ++ detectCalls env orderIds s ++
               (CallUpdateOrder <$> orderIds) ++
               (CallInsertMaterialOrder <$> succeededIds env orderIds) /\
    Forall (fun k => isGateCall k = false)
           (detectCalls env orderIds s ++ processCalls env orderIds) /\
    success r = (0 <? length (succeededIds env orderIds))%nat /\
    duplicateCheck r = Some c /\
    (forall o, o ∈ ordersT s -> order_id o ∈ orderIds ->
               updateOrderThrows env (order_id o) = false ->
               exists o', o' ∈ ordersT s' /\ order_id o' = order_id o /\
                          order_status o' = MATERIALS_ORDERED) /\
    statusHistoryT s' = statusHistoryT s /\
    materialOrderHistoryT s' = materialOrderHistoryT s ++ added /\
    mo_orderId <$> added = loggedIds env orderIds /\
    Forall (fun a => mo_wasOverridden a = true) added.
Proof.
  intros Hc Hreq Hcode. apply check_is_detect in Hc. subst c.
  destruct (processMaterialOrder_processing env orderIds userId overrideCode
              overrideReason s (or_introl Hreq)) as (added & n & -> & Hids & Hall).
  do 2 eexists. exists added. split; [reflexivity|]. fields.
  unfold gateCalls. rewrite Hreq. cbn [andb app].
  split; [done|].
  split; [apply Forall_app; split; [apply detectCalls_no_gate|apply processCalls_no_gate]|].
  split; [done|]. split; [done|].
  split.
  { intros o Ho Hin Hupd. rewrite foldl_markOrdered.
    eexists. split; [apply list_elem_of_fmap; exists o; split; [reflexivity|exact Ho]|].
    split; [apply markOrdered_all_id|].
    apply markOrdered_all_status, elem_of_succeededIds. done. }
  split; [done|]. split; [done|]. split; [done|].
  eapply Forall_impl; [exact Hall|]. cbv beta. intros a (Ha & _). by rewrite Ha.
Qed.

Lemma processMaterialOrder_unneeded_code_witness :
  exists r s' added,
    processMaterialOrder (healthy T0 filtering) ["A"; "B"] "u1"
                         (Some "not-the-code") None shop = (Ok r, s') /\
    calls s' = calls shop ++ detectCalls (healthy T0 filtering) ["A"; "B"] shop ++
               [CallUpdateOrder "A"; CallUpdateOrder "B"] ++
               [CallInsertMaterialOrder "A"; CallInsertMaterialOrder "B"] /\
    Forall (fun k => isGateCall k = false)
           (detectCalls (healthy T0 filtering) ["A"; "B"] shop
            ++ processCalls (healthy T0 filtering) ["A"; "B"]) /\
    success r = true /\
    duplicateCheck r = Some (mkCheck false [] false LOW) /\
    (forall o, o ∈ ordersT shop -> order_id o ∈ ["A"; "B"] ->
               never (order_id o) = false ->
               exists o', o' ∈ ordersT s' /\ order_id o' = order_id o /\
                          order_status o' = MATERIALS_ORDERED) /\
    statusHistoryT s' = statusHistoryT shop /\
    materialOrderHistoryT s' = materialOrderHistoryT shop ++ added /\
    mo_orderId <$> added = ["A"; "B"] /\
    Forall (fun a => mo_wasOverridden a = true) added.
Proof.
  apply (processMaterialOrder_unneeded_code
           (healthy T0 filtering) ["A"; "B"] "u1" (Some "not-the-code") None shop
           (mkCheck false [] false LOW)); reflexivity.
Defined.

(** Orders A and B sent with a code that is not the management code, call
    by call: both updates are made before the first audit insert, and
    both orders end MATERIALS_ORDERED. *)
Lemma processMaterialOrder_unneeded_code_trace :
  let run := processMaterialOrder (healthy T0 filtering) ["A"; "B"] "u1"
               (Some "not-the-code") None shop in
  calls (snd run)
  = [CallSelectHistory InvalidDate; CallGetOrder "A"; CallGetOrder "B";
     CallUpdateOrder "A"; CallUpdateOrder "B";
     CallInsertMaterialOrder "A"; CallInsertMaterialOrder "B"] /\
  order_status <$> ordersT (snd run) = [MATERIALS_ORDERED; MATERIALS_ORDERED] /\
  mo_wasOverridden <$> materialOrderHistoryT (snd run) = [true; true].
Proof. repeat split. Qed.

(** C1, as amended. For a batch that reaches step 4, every order of the
    store whose id is in the batch and whose update is accepted ends with
    status MATERIALS_ORDERED, and the audit table grows by one row for each
    id of the batch whose update and audit insert are both accepted, in
    batch order, each row with [wasOverridden] equal to whether an override
    code was supplied.  A rejected audit insert is swallowed: the order
    still counts as processed and gets no row. *)
Theorem processMaterialOrder_marks_and_logs (env : Env) (orderIds : list string)
    (userId : string) (overrideCode overrideReason : option string) (s : Store)
    (c : DuplicateOrderCheck) :
  fst (checkDuplicateOrders env orderIds s) = Ok c ->
  reachesProcessing c overrideCode ->
  exists r s' added,
    processMaterialOrder env orderIds userId overrideCode overrideReason s = (Ok r, s') /\
    (forall o, o ∈ ordersT s -> order_id o ∈ orderIds ->
               updateOrderThrows env (order_id o) = false ->
               exists o', o' ∈ ordersT s' /\ order_id o' = order_id o /\
                          order_status o' = MATERIALS_ORDERED) /\
    success r = (0 <? length (succeededIds env orderIds))%nat /\
    materialOrderHistoryT s' = materialOrderHistoryT s ++ added /\
    mo_orderId <$> added = loggedIds env orderIds /\
    Forall (fun a => mo_wasOverridden a = truthy overrideCode) added.
Proof.
  intros Hc Hreach. apply check_is_detect in Hc. subst c.
  destruct (processMaterialOrder_processing env orderIds userId overrideCode
              overrideReason s Hreach) as (added & n & -> & Hids & Hall).
  do 2 eexists. exists added. split; [reflexivity|]. fields.
  split; [|split; [done|split; [done|split; [done|]]]].
  - intros o Ho Hin Hupd. rewrite foldl_markOrdered.
    eexists. split; [apply list_elem_of_fmap; exists o; split; [reflexivity|exact Ho]|].
    split; [apply markOrdered_all_id|].
    apply markOrdered_all_status, elem_of_succeededIds. done.
  - eapply Forall_impl; [exact Hall|]. cbv beta. by intros a (Ha & _).
Qed.

Lemma processMaterialOrder_marks_and_logs_witness :
  exists r s' added,
    processMaterialOrder (healthy T0 (answering [rowA])) ["A"; "B"] "u1"
                         (Some MANAGEMENT_OVERRIDE_CODE) (Some "restock") shop = (Ok r, s') /\
    (forall o, o ∈ ordersT shop -> order_id o ∈ ["A"; "B"] ->
               never (order_id o) = false ->
               exists o', o' ∈ ordersT s' /\ order_id o' = order_id o /\
                          order_status o' = MATERIALS_ORDERED) /\
    success r = true /\
    materialOrderHistoryT s' = materialOrderHistoryT shop ++ added /\
    mo_orderId <$> added = ["A"; "B"] /\
    Forall (fun a => mo_wasOverridden a = true) added.
Proof.
  apply (processMaterialOrder_marks_and_logs
           (healthy T0 (answering [rowA])) ["A"; "B"] "u1"
           (Some MANAGEMENT_OVERRIDE_CODE) (Some "restock") shop
           (mkCheck true [rowA] true CRITICAL)).
  - reflexivity.
  - by right.
Defined.

(** C1 as stated fails. Order A is processed with the audit insert
    rejected: the result is a success and A is MATERIALS_ORDERED, yet the
    status history has gained no entry and the audit table no row. *)
Lemma processMaterialOrder_marks_and_logs_counterexample :
  let env := mkEnv T0 uuidOf (answering []) never never never (fun _ => true) in
  let run := processMaterialOrder env ["A"] "u1" None None shop in
  fst run = Ok (mkResult true "Successfully ordered materials for 1 orders" None
                         (Some (mkCheck false [] false LOW))) /\
  order_status <$> List.find (fun o => String.eqb (order_id o) "A") (ordersT (snd run))
  = Some MATERIALS_ORDERED /\
  statusHistoryT (snd run) = statusHistoryT shop /\
  materialOrderHistoryT (snd run) = materialOrderHistoryT shop.
Proof. repeat split. Qed.

(** Every call falls in one of the three cases: blocked, unauthorized, or
    processed; in each of them a result is returned and the first call
    made is the recent-history query of the detector. *)
Lemma processMaterialOrder_starts_with_check (env : Env) (orderIds : list string)
    (userId : string) (overrideCode overrideReason : option string) (s : Store) :
  exists r s' rest,
    processMaterialOrder env orderIds userId overrideCode overrideReason s = (Ok r, s') /\
    calls s' = calls s ++ CallSelectHistory (cutoffTime env) :: rest.
Proof.
  destruct (requiresOverride (detect env orderIds s)) eqn:Hreq.
  - destruct (truthy overrideCode) eqn:Hcode.
    + destruct overrideCode as [code|]; [|discriminate].
      destruct (decide (code = MANAGEMENT_OVERRIDE_CODE)) as [->|Hne].
      * destruct (processMaterialOrder_processing env orderIds userId
                    (Some MANAGEMENT_OVERRIDE_CODE) overrideReason s (or_intror eq_refl))
          as (added & n & -> & _).
        do 3 eexists. split; [reflexivity|]. fields. reflexivity.
      * rewrite processMaterialOrder_unauthorized by done.
        do 3 eexists. split; [reflexivity|]. reflexivity.
    + rewrite processMaterialOrder_blocked by done.
      do 3 eexists. split; [reflexivity|]. reflexivity.
  - destruct (processMaterialOrder_processing env orderIds userId overrideCode
                overrideReason s (or_introl Hreq)) as (added & n & -> & _).
    do 3 eexists. split; [reflexivity|]. fields. reflexivity.
Qed.

(** C7, as amended. [processMaterialOrder] validates nothing before the
    detector runs: every call, also one with an empty list of order ids or
    without an override reason, returns a result, and the first call it
    makes is the recent-history query of the duplicate check.  With an
    empty list nothing is written, and when the check requires no override
    the result is [success = false] with a message that counts 0 orders. *)
Theorem processMaterialOrder_no_validation (env : Env) (userId : string)
    (overrideCode overrideReason : option string) (s : Store) :
  (forall orderIds,
     exists r s' rest,
       processMaterialOrder env orderIds userId overrideCode overrideReason s = (Ok r, s') /\
       calls s' = calls s ++ CallSelectHistory (cutoffTime env) :: rest) /\
  (let s' := snd (processMaterialOrder env [] userId overrideCode overrideReason s) in
   ordersT s' = ordersT s /\ statusHistoryT s' = statusHistoryT s /\
   materialOrderHistoryT s' = materialOrderHistoryT s) /\
  (forall c,
     fst (checkDuplicateOrders env [] s) = Ok c ->
     requiresOverride c = false ->
     fst (processMaterialOrder env [] userId overrideCode overrideReason s)
     = Ok (mkResult false
             ("Successfully ordered materials for 0 orders" +:+
              (if truthy overrideCode then " (Management Override Used)" else ""))
             None (Some c))).
Proof.
  split; [intros orderIds; apply processMaterialOrder_starts_with_check|].
  split.
  - unfold processMaterialOrder, tryCatch, bind, processOrders.
    rewrite checkDuplicateOrders_run. cbn [promiseAll].
    destruct (requiresOverride (detect env [] s) && negb (truthy overrideCode));
      [by repeat split|].
    destruct (requiresOverride (detect env [] s) && truthy overrideCode).
    + rewrite verifyManagementAuthorization_run.
      destruct (String.eqb (default "" overrideCode) MANAGEMENT_OVERRIDE_CODE);
        by repeat split.
    + by repeat split.
  - intros c Hc Hreq. apply check_is_detect in Hc. subst c.
    destruct (processMaterialOrder_processing env [] userId overrideCode
                overrideReason s (or_introl Hreq)) as (added & n & -> & _).
    reflexivity.
Qed.

Lemma processMaterialOrder_no_validation_witness :
  fst (processMaterialOrder (healthy T0 (answering [])) [] "u1" None None shop)
  = Ok (mkResult false "Successfully ordered materials for 0 orders" None
                 (Some (mkCheck false [] false LOW))).
Proof.
  apply (processMaterialOrder_no_validation (healthy T0 (answering [])) "u1" None None shop);
    reflexivity.
Defined.

(** C7 as stated fails. An empty list of order ids is not rejected before
    the detector runs: the history query is issued and an ordinary result
    comes back.  A required override with no reason is not rejected either:
    the gate is called with the default reason and the order is processed. *)
Lemma processMaterialOrder_no_validation_counterexample :
  processMaterialOrder (healthy T0 (answering [])) [] "u1" None None shop
  = (Ok (mkResult false "Successfully ordered materials for 0 orders" None
                  (Some (mkCheck false [] false LOW))),
     withCalls shop [CallSelectHistory InvalidDate])
  /\
  (let run := processMaterialOrder (healthy T0 (answering [rowA])) ["A"] "u1"
                (Some MANAGEMENT_OVERRIDE_CODE) None shop in
   success <$> (match fst run with Ok r => Some r | Throw _ => None end) = Some true /\
   calls (snd run) =
     [CallSelectHistory InvalidDate; CallGetOrder "A";
      CallVerifyAuthorization MANAGEMENT_OVERRIDE_CODE "u1" "Material ordering override";
      CallUpdateOrder "A"; CallInsertMaterialOrder "A"]).
Proof. repeat split. Qed.

(** ** Status transitions through the PATCH handlers *)

Section StatusRoutes.

Variable env : Env.

Lemma find_patched id p (orders : list Order) o :
  List.find (fun o => String.eqb (order_id o) id) orders = Some o ->
  List.find (fun o => String.eqb (order_id o) id)
            ((fun o => if String.eqb (order_id o) id then applyPatch env p o else o) <$> orders)
  = Some (applyPatch env p o).
Proof.
  induction orders as [|x rest IH]; simpl; [discriminate|].
  destruct (String.eqb (order_id x) id) eqn:Hx; simpl.
  - intros [= ->]. by rewrite Hx.
  - rewrite Hx. exact IH.
Qed.

(** One accepted call of PATCH /api/orders/:id/status on an existing order:
    an entry is appended whatever the current status is. *)
Lemma patchOrderStatus_appends id status sessionUser s o :
  getOrderThrows env id = false ->
  updateOrderThrows env id = false ->
  createStatusHistoryThrows env id = false ->
  List.find (fun o => String.eqb (order_id o) id) (ordersT s) = Some o ->
  let s' := snd (patchOrderStatus env id status sessionUser s) in
  statusHistoryT s' =
    statusHistoryT s ++
      [mkStatusHistory (randomUUID env (uuids s)) id (Some (order_status o)) status
                       (actor sessionUser) None] /\
  uuids s' = S (uuids s) /\
  List.find (fun o => String.eqb (order_id o) id) (ordersT s')
  = Some (applyPatch env (mkPatch (Some status) None) o).
Proof.
  intros Hget Hupd Hcreate Hfind.
  unfold patchOrderStatus, getOrder, updateOrder, createStatusHistory, freshUUID,
    sendStatusUpdate.
  run. rewrite ?Hget, ?Hfind. simpl. rewrite ?Hupd. simpl. rewrite ?Hcreate. simpl.
  rewrite ?Hget. simpl.
  rewrite (find_patched id (mkPatch (Some status) None) (ordersT s) o Hfind). simpl.
  repeat split. apply find_patched, Hfind.
Qed.

(** Two accepted calls in a row with the same target: two entries, the
    second one from the target status to itself. *)
Lemma patchOrderStatus_twice id status sessionUser s o :
  getOrderThrows env id = false ->
  updateOrderThrows env id = false ->
  createStatusHistoryThrows env id = false ->
  List.find (fun o => String.eqb (order_id o) id) (ordersT s) = Some o ->
  statusHistoryT (snd (patchOrderStatus env id status sessionUser
                         (snd (patchOrderStatus env id status sessionUser s)))) =
    statusHistoryT s ++
      [mkStatusHistory (randomUUID env (uuids s)) id (Some (order_status o)) status
                       (actor sessionUser) None;
       mkStatusHistory (randomUUID env (S (uuids s))) id (Some status) status
                       (actor sessionUser) None].
Proof.
  intros Hget Hupd Hcreate Hfind.
  destruct (patchOrderStatus_appends id status sessionUser s o Hget Hupd Hcreate Hfind)
    as (Hhist & Huuid & Hfind').
  destruct (patchOrderStatus_appends id status sessionUser _ _ Hget Hupd Hcreate Hfind')
    as (Hhist' & _ & _).
  rewrite Hhist', Hhist, Huuid, <- app_assoc. reflexivity.
Qed.

(** PATCH /api/orders/:id compares first: when the order already has the
    requested status, no entry is written. *)
Lemma patchOrder_same_status_no_entry id status notes sessionUser s o :
  List.find (fun o => String.eqb (order_id o) id) (ordersT s) = Some o ->
  order_status o = status ->
  statusHistoryT (snd (patchOrder env id (mkPatch (Some status) notes) sessionUser s))
  = statusHistoryT s.
Proof.
  intros Hfind Hsame.
  unfold patchOrder, getOrder, updateOrder, createStatusHistory, freshUUID.
  run.
  destruct (getOrderThrows env id); simpl; [done|].
  rewrite Hfind. simpl.
  rewrite bool_decide_eq_false_2 by (intros Hne; by apply Hne).
  simpl. destruct (updateOrderThrows env id); simpl; [done|].
  by destruct (getOrderThrows env id).
Qed.

End StatusRoutes.

(** C6, on the code. Order A is ORDER_PROCESSED; PATCH
    /api/orders/A/status with MATERIALS_ORDERED is sent twice. The handler
    writes two entries, the second one from MATERIALS_ORDERED to
    MATERIALS_ORDERED. The same two requests through PATCH /api/orders/A
    write one. *)
Theorem patchOrderStatus_twice_two_entries :
  let env := healthy T0 (answering []) in
  statusHistoryT
    (snd (patchOrderStatus env "A" MATERIALS_ORDERED None
            (snd (patchOrderStatus env "A" MATERIALS_ORDERED None shop))))
  = [mkStatusHistory "uuid-0" "A" (Some ORDER_PROCESSED) MATERIALS_ORDERED "system" None;
     mkStatusHistory "uuid-1" "A" (Some MATERIALS_ORDERED) MATERIALS_ORDERED "system" None]
  /\
  statusHistoryT
    (snd (patchOrder env "A" (mkPatch (Some MATERIALS_ORDERED) None) None
            (snd (patchOrder env "A" (mkPatch (Some MATERIALS_ORDERED) None) None shop))))
  = [mkStatusHistory "uuid-0" "A" (Some ORDER_PROCESSED) MATERIALS_ORDERED "system" None].
Proof. split; reflexivity. Qed.

(** * Further properties *)

(** ** Material signatures *)

Lemma stripPrefix_app p1 p2 s :
  stripPrefix (p1 +:+ p2) s = stripPrefix p1 s ≫= stripPrefix p2.
Proof.
  revert s. induction p1 as [|a p1 IH]; intros s; simpl; [done|].
  destruct s as [|b s]; simpl; [done|]. by destruct (Ascii.eqb a b).
Qed.

Lemma stripPrefix_takeDigits s : exists rest, stripPrefix (takeDigits s) s = Some rest.
Proof.
  induction s as [|c r [rest IH]]; simpl; [by eexists|].
  destruct (isDigit c); simpl; [|by eexists].
  rewrite Ascii.eqb_refl. by eexists.
Qed.

Lemma allDigits_takeDigits s : allDigits (takeDigits s) = true.
Proof.
  induction s as [|c r IH]; simpl; [done|].
  destruct (isDigit c) eqn:Hc; simpl; [|done]. by rewrite Hc.
Qed.

Lemma includes_here s sub rest : stripPrefix sub s = Some rest -> includes s sub = true.
Proof. intros H. destruct s; simpl in *; by rewrite H. Qed.

Lemma includes_later c s sub : includes s sub = true -> includes (String c s) sub = true.
Proof. intros H. simpl. by destruct (stripPrefix sub (String c s)). Qed.

Lemma matchCodeHere_sound lit letter s c :
  matchCodeHere lit letter s = Some c ->
  exists ds rest, c = String letter ds /\ ds <> "" /\ allDigits ds = true /\
                  stripPrefix (lit +:+ c) s = Some rest.
Proof.
  unfold matchCodeHere.
  destruct (stripPrefix lit s) as [[|c0 rest0]|] eqn:Hlit; try discriminate.
  destruct (Ascii.eqb c0 letter) eqn:Hc0; [|discriminate].
  apply Ascii.eqb_eq in Hc0. subst c0.
  destruct (takeDigits rest0) as [|d ds] eqn:Hds; [discriminate|].
  intros [= <-]. destruct (stripPrefix_takeDigits rest0) as [rest Hrest].
  exists (String d ds), rest. split; [done|]. split; [done|].
  split; [rewrite <- Hds; apply allDigits_takeDigits|].
  rewrite <- Hds, stripPrefix_app, Hlit. simpl. rewrite Ascii.eqb_refl. exact Hrest.
Qed.

(** What the regular expressions capture: the letter, then at least one
    digit and only digits, at a place of the text where the marker and the
    code occur. *)
Lemma matchCode_sound lit letter s c :
  matchCode lit letter s = Some c ->
  exists ds, c = String letter ds /\ ds <> "" /\ allDigits ds = true /\
             includes s (lit +:+ c) = true.
Proof.
  induction s as [|a r IH]; simpl.
  - destruct (matchCodeHere lit letter "") eqn:Hhere; [|discriminate].
    intros [= ->]. destruct (matchCodeHere_sound _ _ _ _ Hhere) as (ds & rest & ? & ? & ? & Hs).
    exists ds. repeat split; try done. by rewrite Hs.
  - destruct (matchCodeHere lit letter (String a r)) eqn:Hhere.
    + intros [= ->].
      destruct (matchCodeHere_sound _ _ _ _ Hhere) as (ds & rest & ? & ? & ? & Hs).
      exists ds. split; [done|]. split; [done|]. split; [done|].
      by rewrite Hs.
    + intros Hm. destruct (IH Hm) as (ds & ? & ? & ? & Hinc).
      exists ds. split; [done|]. split; [done|]. split; [done|].
      by destruct (stripPrefix (lit +:+ c) (String a r)).
Qed.

Lemma matchCode_none lit letter s :
  includes s lit = false -> matchCode lit letter s = None.
Proof.
  induction s as [|a r IH]; simpl.
  - unfold matchCodeHere. by destruct (stripPrefix lit "").
  - unfold matchCodeHere. destruct (stripPrefix lit (String a r)); [discriminate|].
    exact IH.
Qed.

(** X1. A signature names each known vendor at most once, in the fixed
    order Roma Moulding, Larson Juhl, Crescent, Guardian Glass; it never
    has more than four entries. *)
Theorem extractMaterialsFromNotes_vendors (notes : string) :
  sublist (vendor <$> extractMaterialsFromNotes notes) knownVendors /\
  (length (extractMaterialsFromNotes notes) <= 4)%nat.
Proof.
  assert (sublist (vendor <$> extractMaterialsFromNotes notes) knownVendors) as Hsub.
  { unfold extractMaterialsFromNotes, knownVendors.
    destruct (matchCode "Frame: " "R" notes), (matchCode "Frame: " "L" notes),
      (matchCode "Mat: " "C" notes), (includes notes "Museum Glass"); simpl;
      repeat first [apply sublist_nil_l | apply sublist_skip | apply sublist_cons]. }
  split; [done|].
  apply sublist_length in Hsub. by rewrite length_fmap in Hsub.
Qed.

(** X2. Every entry of a signature is backed by the notes: a Guardian
    Glass entry is "Museum Glass" and that text occurs in the notes; any
    other entry has an item made of the vendor's letter followed by one or
    more digits, and the notes contain the vendor's marker followed by
    that item. *)
Theorem extractMaterialsFromNotes_sound (notes : string) (m : Material) :
  m ∈ extractMaterialsFromNotes notes ->
  includes notes (marker (vendor m) +:+ item m) = true /\
  (vendor m = "Guardian Glass" /\ item m = "Museum Glass" \/
   exists letter ds,
     (vendor m, letter) ∈ [("Roma Moulding", "R"%char); ("Larson Juhl", "L"%char);
                           ("Crescent", "C"%char)] /\
     item m = String letter ds /\ ds <> "" /\ allDigits ds = true).
Proof.
  unfold extractMaterialsFromNotes.
  destruct (matchCode "Frame: " "R" notes) as [r|] eqn:Hr;
    destruct (matchCode "Frame: " "L" notes) as [l|] eqn:Hl;
    destruct (matchCode "Mat: " "C" notes) as [c|] eqn:Hc;
    destruct (includes notes "Museum Glass") eqn:Hg; simpl;
    rewrite ?elem_of_cons, elem_of_nil; intros Hm;
    repeat match goal with H : _ \/ _ |- _ => destruct H as [H|H] end;
    try done; subst m; simpl;
    try (split; [done|by left]);
    match goal with
    | H : matchCode ?lit ?letter notes = Some ?x |- context [?x] =>
        destruct (matchCode_sound _ _ _ _ H) as (ds & -> & Hne & Hdig & Hinc);
        (split; [exact Hinc|]); right; exists letter, ds;
        (split; [set_solver|done])
    end.
Qed.

Lemma extractMaterialsFromNotes_sound_witness :
  includes "Frame: R123, Mat: C77" (marker "Crescent" +:+ "C77") = true /\
  ("Crescent" = "Guardian Glass" /\ "C77" = "Museum Glass" \/
   exists letter ds,
     ("Crescent", letter) ∈ [("Roma Moulding", "R"%char); ("Larson Juhl", "L"%char);
                             ("Crescent", "C"%char)] /\
     "C77" = String letter ds /\ ds <> "" /\ allDigits ds = true).
Proof.
  apply (extractMaterialsFromNotes_sound "Frame: R123, Mat: C77" (mkMaterial "Crescent" "C77")).
  vm_compute. set_solver.
Defined.

(** X3. Notes that contain none of the three markers yield the empty
    signature; the empty notes are such. *)
Theorem extractMaterialsFromNotes_no_marker (notes : string) :
  includes notes "Frame: " = false ->
  includes notes "Mat: " = false ->
  includes notes "Museum Glass" = false ->
  extractMaterialsFromNotes notes = [].
Proof.
  intros Hf Hm Hg. unfold extractMaterialsFromNotes.
  by rewrite !(matchCode_none "Frame: ") , (matchCode_none "Mat: "), Hg by done.
Qed.

Lemma extractMaterialsFromNotes_no_marker_witness :
  extractMaterialsFromNotes "" = [].
Proof.
  apply (extractMaterialsFromNotes_no_marker ""); reflexivity.
Defined.

(** ** Jaccard similarity *)

Section Similarity.

Implicit Types (a b : list Material) (ka kb : list string).

Lemma NoDup_keysOf a : NoDup (keysOf a).
Proof. apply NoDup_remove_dups. Qed.

Lemma elem_of_filter_has ka kb x :
  x ∈ List.filter (setHas kb) ka <-> x ∈ ka /\ x ∈ kb.
Proof.
  rewrite !list_elem_of_In, filter_In. unfold setHas.
  rewrite bool_decide_eq_true, list_elem_of_In. done.
Qed.

Lemma elem_of_intersection ka kb x :
  x ∈ newSet (List.filter (setHas kb) ka) <-> x ∈ ka /\ x ∈ kb.
Proof. unfold newSet. by rewrite elem_of_remove_dups, elem_of_filter_has. Qed.

Lemma elem_of_union ka kb x : x ∈ newSet (ka ++ kb) <-> x ∈ ka \/ x ∈ kb.
Proof. unfold newSet. by rewrite elem_of_remove_dups, elem_of_app. Qed.

Lemma length_same_elements ka kb :
  NoDup ka -> NoDup kb -> (forall x, x ∈ ka <-> x ∈ kb) -> length ka = length kb.
Proof. intros H1 H2 H. apply Permutation_length. by apply NoDup_Permutation. Qed.

Lemma length_subset ka kb :
  NoDup ka -> (forall x, x ∈ ka -> x ∈ kb) -> (length ka <= length kb)%nat.
Proof. intros H1 H. apply submseteq_length. by apply NoDup_submseteq. Qed.

Lemma intersection_le_union ka kb :
  (length (newSet (List.filter (setHas kb) ka)) <= length (newSet (ka ++ kb)))%nat.
Proof.
  apply length_subset; [apply NoDup_remove_dups|].
  intros x. rewrite elem_of_intersection, elem_of_union. tauto.
Qed.

(** The similarity is the quotient of the two set sizes whenever both
    lists are non-empty, and 0 otherwise. *)
Lemma calculateMaterialSimilarity_unfold a b :
  calculateMaterialSimilarity a b =
  if (length a =? 0)%nat || (length b =? 0)%nat then 0%Q
  else ratio (length (newSet (List.filter (setHas (keysOf b)) (keysOf a))))
             (length (newSet (keysOf a ++ keysOf b))).
Proof.
  unfold calculateMaterialSimilarity, keysOf.
  by destruct (length a =? 0)%nat, (length b =? 0)%nat.
Qed.

Lemma ratio_bounds n d : (n <= d)%nat -> (0 <= ratio n d)%Q /\ (ratio n d <= 1)%Q.
Proof.
  intros Hle. unfold ratio, Qle. cbn [Qnum Qden]. split; [lia|].
  destruct d as [|d]; [replace n with 0%nat by lia; simpl; lia|].
  rewrite <- (positive_nat_Z (Pos.of_nat (S d))), Nat2Pos.id by done. lia.
Qed.

Lemma exceeds80_ratio n d :
  (0 < d)%nat -> exceeds80 (ratio n d) = true <-> (4 * d < 5 * n)%nat.
Proof.
  intros Hd. unfold exceeds80. rewrite negb_true_iff, <- not_true_iff_false, Qle_bool_iff.
  unfold ratio, Qle. cbn [Qnum Qden].
  rewrite <- (positive_nat_Z (Pos.of_nat d)), Nat2Pos.id by lia. lia.
Qed.

Lemma keysOf_nonempty a : a <> [] -> (0 < length (keysOf a))%nat.
Proof.
  destruct a as [|m a]; [done|]. intros _.
  assert (materialKey m ∈ keysOf (m :: a)) as Hin.
  { unfold keysOf, newSet. rewrite elem_of_remove_dups. simpl. left. }
  destruct (keysOf (m :: a)); [by apply elem_of_nil in Hin|simpl; lia].
Qed.

Lemma length_keysOf a : (length (keysOf a) <= length a)%nat.
Proof.
  unfold keysOf, newSet. rewrite <- (length_fmap materialKey a).
  induction (materialKey <$> a) as [|x l IH]; simpl; [done|].
  destruct (decide_rel elem_of x l); simpl; lia.
Qed.

Lemma length_zero_iff_nil {A} (l : list A) : (length l =? 0)%nat = true <-> l = [].
Proof. destruct l; simpl; split; done. Qed.

(** Same key sets, both lists non-empty: similarity 1. *)
Lemma similarity_same_keys a b :
  a <> [] -> b <> [] -> (forall k, k ∈ keysOf a <-> k ∈ keysOf b) ->
  exists n, (0 < n)%nat /\ calculateMaterialSimilarity a b = ratio n n.
Proof.
  intros Ha Hb Hsame. rewrite calculateMaterialSimilarity_unfold.
  destruct (length a =? 0)%nat eqn:Hla; [by apply length_zero_iff_nil in Hla|].
  destruct (length b =? 0)%nat eqn:Hlb; [by apply length_zero_iff_nil in Hlb|].
  simpl.
  assert (length (newSet (List.filter (setHas (keysOf b)) (keysOf a))) = length (keysOf a))
    as ->.
  { apply length_same_elements; [apply NoDup_remove_dups|apply NoDup_keysOf|].
    intros x. rewrite elem_of_intersection. specialize (Hsame x). tauto. }
  assert (length (newSet (keysOf a ++ keysOf b)) = length (keysOf a)) as ->.
  { apply length_same_elements; [apply NoDup_remove_dups|apply NoDup_keysOf|].
    intros x. rewrite elem_of_union. specialize (Hsame x). tauto. }
  exists (length (keysOf a)). split; [by apply keysOf_nonempty|done].
Qed.

(** Above the threshold with at most four keys on one side: the key sets
    are the same. *)
Lemma similarity_exceeds_same_keys a b :
  (length (keysOf a) <= 4)%nat ->
  exceeds80 (calculateMaterialSimilarity a b) = true ->
  a <> [] /\ b <> [] /\ forall k, k ∈ keysOf a <-> k ∈ keysOf b.
Proof.
  intros Hfour. rewrite calculateMaterialSimilarity_unfold.
  destruct (length a =? 0)%nat eqn:Hla; [done|].
  destruct (length b =? 0)%nat eqn:Hlb; [done|].
  simpl. intros Hex.
  assert (a <> []) as Ha by (intros ->; done).
  assert (b <> []) as Hb by (intros ->; done).
  split; [done|]. split; [done|].
  set (inter := newSet (List.filter (setHas (keysOf b)) (keysOf a))) in *.
  set (union := newSet (keysOf a ++ keysOf b)) in *.
  assert (length inter <= length (keysOf a))%nat as Hia.
  { apply length_subset; [apply NoDup_remove_dups|].
    intros x. unfold inter. rewrite elem_of_intersection. tauto. }
  assert (length (keysOf a) <= length union)%nat as Hau.
  { apply length_subset; [apply NoDup_keysOf|].
    intros x. unfold union. rewrite elem_of_union. tauto. }
  apply exceeds80_ratio in Hex; [|pose proof (keysOf_nonempty a Ha); lia].
  assert (inter ≡ₚ union) as Hperm.
  { apply submseteq_length_Permutation; [|lia].
    apply NoDup_submseteq; [apply NoDup_remove_dups|].
    intros x. unfold inter, union. rewrite elem_of_intersection, elem_of_union. tauto. }
  intros k. split; intros Hk.
  - assert (k ∈ union) as Hu by (unfold union; rewrite elem_of_union; tauto).
    rewrite <- Hperm in Hu. unfold inter in Hu. rewrite elem_of_intersection in Hu. tauto.
  - assert (k ∈ union) as Hu by (unfold union; rewrite elem_of_union; tauto).
    rewrite <- Hperm in Hu. unfold inter in Hu. rewrite elem_of_intersection in Hu. tauto.
Qed.

Lemma extract_at_most_four notes : (length (extractMaterialsFromNotes notes) <= 4)%nat.
Proof.
  unfold extractMaterialsFromNotes.
  destruct (matchCode "Frame: " "R" notes), (matchCode "Frame: " "L" notes),
    (matchCode "Mat: " "C" notes), (includes notes "Museum Glass"); simpl; lia.
Qed.

End Similarity.

(** X4. The similarity of two material lists is a number between 0 and 1. *)
Theorem calculateMaterialSimilarity_bounds (a b : list Material) :
  (0 <= calculateMaterialSimilarity a b)%Q /\ (calculateMaterialSimilarity a b <= 1)%Q.
Proof.
  rewrite calculateMaterialSimilarity_unfold.
  destruct ((length a =? 0)%nat || (length b =? 0)%nat); [done|].
  apply ratio_bounds, intersection_le_union.
Qed.

(** X5. The similarity does not depend on which list comes first. *)
Theorem calculateMaterialSimilarity_sym (a b : list Material) :
  calculateMaterialSimilarity a b = calculateMaterialSimilarity b a.
Proof.
  rewrite !calculateMaterialSimilarity_unfold, (orb_comm (length b =? 0)%nat).
  destruct ((length a =? 0)%nat || (length b =? 0)%nat); [done|].
  f_equal.
  - apply length_same_elements; try apply NoDup_remove_dups.
    intros x. rewrite !elem_of_intersection. tauto.
  - apply length_same_elements; try apply NoDup_remove_dups.
    intros x. rewrite !elem_of_union. tauto.
Qed.

(** X6. A signature extracted from notes is more than 80% similar to a
    stored material list exactly when both are non-empty and have the
    same set of vendor:item keys; order and repetitions in the stored
    list do not matter, and one differing key is enough to stay at or
    below the threshold. *)
Theorem similar_iff_same_materials (notes : string) (stored : list Material) :
  exceeds80 (calculateMaterialSimilarity (extractMaterialsFromNotes notes) stored) = true <->
  extractMaterialsFromNotes notes <> [] /\ stored <> [] /\
  forall k, k ∈ keysOf (extractMaterialsFromNotes notes) <-> k ∈ keysOf stored.
Proof.
  split.
  - apply similarity_exceeds_same_keys.
    etrans; [apply length_keysOf|apply extract_at_most_four].
  - intros (Ha & Hb & Hsame).
    destruct (similarity_same_keys _ _ Ha Hb Hsame) as (n & Hn & ->).
    apply exceeds80_ratio; lia.
Qed.

(** X7. Two material lists without a common vendor:item key, an empty list
    among them, have similarity 0 and stay below the threshold. *)
Theorem calculateMaterialSimilarity_disjoint (a b : list Material) :
  (forall k, k ∈ keysOf a -> k ∉ keysOf b) ->
  (calculateMaterialSimilarity a b == 0)%Q /\
  exceeds80 (calculateMaterialSimilarity a b) = false.
Proof.
  intros Hdisj. rewrite calculateMaterialSimilarity_unfold.
  destruct ((length a =? 0)%nat || (length b =? 0)%nat); [done|].
  assert (newSet (List.filter (setHas (keysOf b)) (keysOf a)) = []) as ->.
  { apply elem_of_nil_inv. intros x. rewrite elem_of_intersection.
    intros [Hx1 Hx2]. by apply (Hdisj x). }
  split; reflexivity.
Qed.

Lemma calculateMaterialSimilarity_disjoint_witness :
  (calculateMaterialSimilarity [mkMaterial "Roma Moulding" "R123"]
                               [mkMaterial "Crescent" "C77"] == 0)%Q /\
  exceeds80 (calculateMaterialSimilarity [mkMaterial "Roma Moulding" "R123"]
                                         [mkMaterial "Crescent" "C77"]) = false.
Proof.
  apply (calculateMaterialSimilarity_disjoint [mkMaterial "Roma Moulding" "R123"]
                                              [mkMaterial "Crescent" "C77"]).
  intros k. vm_compute. set_solver.
Defined.




(** ** Vendor volume and the detector as a whole *)

Section VendorLimits.

Implicit Types (recent : list MaterialOrderAuditRecord) (counts : gmap string nat).


Lemma countVendors_counts recent : forall counts,
  Forall (fun r => parses r = true) recent ->
  exists counts', countVendors recent counts = Ok counts' /\
    forall v, default 0%nat (counts' !! v) = (default 0 (counts !! v) + countOf v recent)%nat.
Proof.
  induction recent as [|r rest IH]; intros counts Hall; simpl.
  - exists counts. split; [done|]. intros v. unfold countOf. simpl. lia.
  - apply Forall_cons in Hall as [Hr Hrest].
    unfold parses in Hr. unfold countOf, countedVendor. simpl.
    destruct (parseDetails (mo_orderDetails r)) as [d|e]; [|done]. simpl.
    destruct (IH (<[orElse (d_vendor d) "Unknown" :=
                    (default 0 (counts !! orElse (d_vendor d) "Unknown") + 1)%nat]> counts)
                 Hrest) as (counts' & -> & Hcounts).
    exists counts'. split; [done|]. intros v. rewrite Hcounts.
    unfold countOf, countedVendor.
    destruct (String.eqb (orElse (d_vendor d) "Unknown") v) eqn:Hv.
    + apply String.eqb_eq in Hv. subst v. rewrite lookup_insert_eq. simpl. lia.
    + apply String.eqb_neq in Hv. rewrite lookup_insert_ne by done. lia.
Qed.

Lemma extracted_vendor_known notes m :
  m ∈ extractMaterialsFromNotes notes -> vendor m ∈ knownVendors.
Proof.
  unfold extractMaterialsFromNotes, knownVendors.
  destruct (matchCode "Frame: " "R" notes), (matchCode "Frame: " "L" notes),
    (matchCode "Mat: " "C" notes), (includes notes "Museum Glass"); simpl;
    rewrite ?elem_of_cons, elem_of_nil; intros Hm;
    repeat match goal with H : _ \/ _ |- _ => destruct H as [H|H] end;
    try done; subst m; simpl; set_solver.
Qed.

Lemma known_vendor_nonempty v : v ∈ knownVendors -> String.eqb v "" = false.
Proof.
  unfold knownVendors. rewrite !elem_of_cons, elem_of_nil.
  intros [->|[->|[->|[->|[]]]]]; reflexivity.
Qed.

Lemma anyOverLimit_true counts (newOrders : list (option Order)) :
  anyOverLimit counts newOrders = true <->
  exists o m, Some o ∈ newOrders /\
    m ∈ extractMaterialsFromNotes (default "" (order_notes o)) /\
    (MAX_DAILY_ORDERS_PER_VENDOR <= default 0 (counts !! vendor m))%nat.
Proof.
  induction newOrders as [|[o|] rest IH]; simpl.
  - split; [done|]. intros (o & m & Hin & _). by apply elem_of_nil in Hin.
  - destruct (existsb _ _) eqn:Hex.
    + split; [intros _|done].
      apply existsb_exists in Hex as (v & Hv & Hover).
      apply filter_In in Hv as [Hv _].
      apply list_elem_of_In, list_elem_of_fmap in Hv as (m & -> & Hm).
      exists o, m. split; [left|]. split; [done|].
      unfold overLimit in Hover. by apply Nat.leb_le in Hover.
    + rewrite IH. split.
      * intros (o' & m & Hin & Hm & Hover). exists o', m. split; [by right|done].
      * intros (o' & m & Hin & Hm & Hover).
        apply elem_of_cons in Hin as [[= <-]|Hin]; [|by exists o', m].
        exfalso. apply not_true_iff_false in Hex. apply Hex.
        apply existsb_exists. exists (vendor m). split.
        -- apply filter_In. split.
           ++ apply list_elem_of_In, list_elem_of_fmap. by exists m.
           ++ by rewrite (known_vendor_nonempty _ (extracted_vendor_known _ _ Hm)).
        -- unfold overLimit. by apply Nat.leb_le.
  - rewrite IH. split.
    + intros (o' & m & Hin & Hm & Hover). exists o', m. split; [by right|done].
    + intros (o' & m & Hin & Hm & Hover).
      apply elem_of_cons in Hin as [[=]|Hin]. by exists o', m.
Qed.

Lemma countedVendor_logged r : loggedByService r -> countedVendor r = "Unknown" /\ parses r = true.
Proof. by intros (env & id & orderId & userId & b & ->). Qed.

Lemma countOf_logged v recent :
  Forall loggedByService recent -> v <> "Unknown" -> countOf v recent = 0%nat.
Proof.
  intros Hall Hv. unfold countOf.
  induction Hall as [|r rest Hr _ IH]; simpl; [done|].
  destruct (countedVendor_logged r Hr) as [-> _].
  apply String.eqb_neq in Hv. rewrite String.eqb_sym, Hv. exact IH.
Qed.

End VendorLimits.



(** X10. On an audit table that only [logMaterialOrder] has written to, and
    with a database that answers with rows of that table, the detector
    answers LOW or CRITICAL, never MEDIUM or HIGH: the stored snapshots
    carry neither a material list nor a vendor. *)
Theorem own_history_low_or_critical (env : Env) (orderIds : list string) (s : Store) :
  Forall loggedByService (materialOrderHistoryT s) ->
  (forall rows, selectHistorySince env (cutoffTime env) (materialOrderHistoryT s) = Ok rows ->
                rows ⊆ materialOrderHistoryT s) ->
  exists c s', checkDuplicateOrders env orderIds s = (Ok c, s') /\
    (riskLevel c = LOW \/ riskLevel c = CRITICAL).
Proof.
  intros Hown Hsub. rewrite checkDuplicateOrders_run.
  do 2 eexists. split; [reflexivity|]. unfold detect, attempt.
  destruct (selectHistorySince env (cutoffTime env) (materialOrderHistoryT s))
    as [recent|e] eqn:Hsel; simpl; [|by right].
  destruct (lookupAll env orderIds (ordersT s)) as [details|e]; simpl; [|by right].
  assert (Forall loggedByService recent) as Hrecent.
  { apply Forall_forall. intros r Hr.
    eapply Forall_forall in Hown; [done|]. by apply (Hsub recent). }
  unfold classify.
  destruct (0 <? length (duplicatesIn orderIds recent))%nat; simpl; [by right|].
  rewrite checkSimilarMaterials_own_rows by done. simpl.
  destruct (checkVendorOrderLimits details recent) as [[|]|] eqn:Hlim; simpl;
    [|by left|by right].
  exfalso.
  assert (Forall (fun r => parses r = true) recent) as Hparse.
  { eapply Forall_impl; [exact Hrecent|]. intros r Hr. by apply countedVendor_logged. }
  unfold checkVendorOrderLimits in Hlim.
  destruct (countVendors_counts recent ∅ Hparse) as (counts & Hc & Hcounts).
  rewrite Hc in Hlim. simpl in Hlim. injection Hlim as Hlim.
  apply anyOverLimit_true in Hlim as (o & m & _ & Hm & Hover).
  rewrite Hcounts, lookup_empty, countOf_logged in Hover; [simpl in Hover; unfold MAX_DAILY_ORDERS_PER_VENDOR in Hover; lia|done|].
  apply extracted_vendor_known in Hm. unfold knownVendors in Hm.
  intros Heq. rewrite Heq in Hm.
  rewrite !elem_of_cons, elem_of_nil in Hm. by destruct Hm as [|[|[|[|]]]].
Qed.

Lemma own_history_low_or_critical_witness :
  exists c s',
    checkDuplicateOrders (healthy (T0 + msPerHour) (lastDay (T0 + msPerHour))) ["B"] shopAfterA
    = (Ok c, s') /\
    (riskLevel c = LOW \/ riskLevel c = CRITICAL).
Proof.
  apply (own_history_low_or_critical
           (healthy (T0 + msPerHour) (lastDay (T0 + msPerHour))) ["B"] shopAfterA).
  - repeat constructor. by exists (healthy T0 (lastDay T0)), "uuid-0", "A", "u1", false.
  - intros rows [= <-]. intros r Hr.
    apply list_elem_of_In, filter_In in Hr as [Hr _]. by apply list_elem_of_In.
Defined.

(** X11. When the query returns no recent row and the order lookups
    succeed, the check is LOW: not a duplicate, no existing orders, no
    override required; this holds for the empty batch too. *)
Theorem checkDuplicateOrders_no_recent_rows (env : Env) (orderIds : list string) (s : Store) :
  selectHistorySince env (cutoffTime env) (materialOrderHistoryT s) = Ok [] ->
  (forall id, id ∈ orderIds -> getOrderThrows env id = false) ->
  fst (checkDuplicateOrders env orderIds s) = Ok (mkCheck false [] false LOW).
Proof.
  intros Hsel Hget. rewrite checkDuplicateOrders_run. cbn [fst].
  by rewrite detect_no_recent_rows.
Qed.

Lemma checkDuplicateOrders_no_recent_rows_witness :
  fst (checkDuplicateOrders (healthy T0 (answering [])) ["A"; "B"; "nobody"] shop)
  = Ok (mkCheck false [] false LOW).
Proof.
  apply (checkDuplicateOrders_no_recent_rows (healthy T0 (answering []))
           ["A"; "B"; "nobody"] shop); reflexivity.
Defined.

(** X12. [checkDuplicateOrders] never raises and never writes: whatever
    the environment and the batch, it returns a check, leaves the three
    tables as they were, and makes read calls only. *)
Theorem checkDuplicateOrders_read_only (env : Env) (orderIds : list string) (s : Store) :
  exists c s' reads,
    checkDuplicateOrders env orderIds s = (Ok c, s') /\
    sameTables s s' /\
    calls s' = calls s ++ reads /\ Forall (fun k => isReadCall k = true) reads.
Proof.
  rewrite checkDuplicateOrders_run. do 3 eexists. split; [reflexivity|].
  split; [by repeat split|]. split; [reflexivity|]. apply detectCalls_reads.
Qed.

(** ** The orchestrator on every input *)

Section OrchestratorCases.

Variable env : Env.

Lemma gateCalls_no_history c userId overrideCode overrideReason :
  Forall (fun k => isHistoryCall k = false) (gateCalls c userId overrideCode overrideReason).
Proof. unfold gateCalls. destruct (_ && _); by repeat constructor. Qed.

Lemma processCalls_no_history ids :
  Forall (fun k => isHistoryCall k = false) (processCalls env ids).
Proof.
  unfold processCalls. apply Forall_app. split; apply Forall_fmap, Forall_true; done.
Qed.

Lemma detectCalls_no_history ids s :
  Forall (fun k => isHistoryCall k = false) (detectCalls env ids s).
Proof. eapply Forall_impl; [apply detectCalls_reads|]. by intros []. Qed.

(** What any call leaves behind, in each of its three outcomes: the ids
    [okIds] whose rows were updated, the audit rows [added], the calls
    [new]. *)
Lemma processMaterialOrder_cases ids userId overrideCode overrideReason s :
  exists r s' added okIds new,
    processMaterialOrder env ids userId overrideCode overrideReason s = (Ok r, s') /\
    ordersT s' = foldl (fun os id => markOrdered env id <$> os) (ordersT s) okIds /\
    (forall id, id ∈ okIds -> id ∈ ids) /\
    statusHistoryT s' = statusHistoryT s /\
    materialOrderHistoryT s' = materialOrderHistoryT s ++ added /\
    calls s' = calls s ++ new /\
    Forall (fun k => isHistoryCall k = false) new.
Proof.
  assert (
    exists okIds new,
      foldl (fun os id => markOrdered env id <$> os) (ordersT s) (succeededIds env ids)
      = foldl (fun os id => markOrdered env id <$> os) (ordersT s) okIds /\
      (forall id, id ∈ okIds -> id ∈ ids) /\
      calls s ++ detectCalls env ids s ++
        gateCalls (detect env ids s) userId overrideCode overrideReason ++
        processCalls env ids = calls s ++ new /\
      Forall (fun k => isHistoryCall k = false) new) as Hproc.
  { do 2 eexists. split; [reflexivity|]. split.
    - intros id Hid. by apply elem_of_succeededIds in Hid as [? _].
    - split; [reflexivity|]. rewrite !Forall_app.
      auto using detectCalls_no_history, gateCalls_no_history, processCalls_no_history. }
  destruct (requiresOverride (detect env ids s)) eqn:Hreq.
  - destruct (truthy overrideCode) eqn:Hcode.
    + destruct overrideCode as [code|]; [|discriminate].
      destruct (decide (code = MANAGEMENT_OVERRIDE_CODE)) as [->|Hne].
      * destruct (processMaterialOrder_processing env ids userId
                    (Some MANAGEMENT_OVERRIDE_CODE) overrideReason s (or_intror eq_refl))
          as (added & n & -> & _).
        destruct Hproc as (okIds & new & Ho & Hin & Hc & Hnew).
        do 2 eexists. exists added, okIds, new. split; [reflexivity|]. fields. done.
      * rewrite processMaterialOrder_unauthorized by done.
        do 2 eexists. exists [], []. eexists. split; [reflexivity|]. fields.
        unfold withCalls. fields. rewrite app_nil_r.
        split; [done|]. split; [by intros ? ?%elem_of_nil|]. split; [done|]. split; [done|].
        split; [reflexivity|]. rewrite Forall_app.
        auto using detectCalls_no_history, gateCalls_no_history.
    + rewrite processMaterialOrder_blocked by done.
      do 2 eexists. exists [], []. eexists. split; [reflexivity|]. fields.
      unfold withCalls. fields. rewrite app_nil_r.
      split; [done|]. split; [by intros ? ?%elem_of_nil|]. split; [done|]. split; [done|].
      split; [reflexivity|]. apply detectCalls_no_history.
  - destruct (processMaterialOrder_processing env ids userId overrideCode
                overrideReason s (or_introl Hreq)) as (added & n & -> & _).
    destruct Hproc as (okIds & new & Ho & Hin & Hc & Hnew).
    do 2 eexists. exists added, okIds, new. split; [reflexivity|]. fields. done.
Qed.

Lemma markOrdered_all_notes okIds : forall o,
  order_notes (foldl (fun o id => markOrdered env id o) o okIds) = order_notes o.
Proof.
  induction okIds as [|id rest IH]; intros o; simpl; [done|].
  rewrite IH. unfold markOrdered. by destruct (String.eqb (order_id o) id).
Qed.

End OrchestratorCases.

(** X13. With an override required and a non-empty code that is not the
    management code, [processMaterialOrder] answers [success = false] with
    the UNAUTHORIZED message and [requiresOverride = true]; no table is
    changed, no audit row is written, and the only calls made are the
    reads of the check and one call to the gate. *)
Theorem processMaterialOrder_wrong_code (env : Env) (orderIds : list string)
    (userId code : string) (overrideReason : option string) (s : Store)
    (c : DuplicateOrderCheck) :
  fst (checkDuplicateOrders env orderIds s) = Ok c ->
  requiresOverride c = true ->
  code <> "" ->
  code <> MANAGEMENT_OVERRIDE_CODE ->
  exists s',
    processMaterialOrder env orderIds userId (Some code) overrideReason s
    = (Ok (mkResult false "UNAUTHORIZED: Invalid management override code"
                    (Some true) (Some c)), s') /\
    sameTables s s' /\
    calls s' = calls s ++ detectCalls env orderIds s ++
               [CallVerifyAuthorization code userId
                  (orElse overrideReason "Material ordering override")].
Proof.
  intros Hc Hreq Hne Hcode. apply check_is_detect in Hc. subst c.
  assert (truthy (Some code) = true) as Htruthy by (by destruct code).
  rewrite processMaterialOrder_unauthorized by done.
  eexists. split; [reflexivity|]. split; [by repeat split|].
  unfold withCalls, gateCalls. fields. by rewrite Hreq, Htruthy.
Qed.

Lemma processMaterialOrder_wrong_code_witness :
  exists s',
    processMaterialOrder (healthy T0 (answering [rowA])) ["A"] "u1"
                         (Some "mgmt_override_2025_materials") None shop
    = (Ok (mkResult false "UNAUTHORIZED: Invalid management override code"
                    (Some true) (Some (mkCheck true [rowA] true CRITICAL))), s') /\
    sameTables shop s' /\
    calls s' = calls shop ++ detectCalls (healthy T0 (answering [rowA])) ["A"] shop ++
               [CallVerifyAuthorization "mgmt_override_2025_materials" "u1"
                  "Material ordering override"].
Proof.
  apply (processMaterialOrder_wrong_code (healthy T0 (answering [rowA])) ["A"] "u1"
           "mgmt_override_2025_materials" None shop (mkCheck true [rowA] true CRITICAL));
    done.
Defined.

(** X14. [processMaterialOrder] never writes status history: on every
    input it returns a result, the status history is what it was, and no
    call to [createStatusHistory] is made, also when it has set orders to
    MATERIALS_ORDERED. *)
Theorem processMaterialOrder_writes_no_history (env : Env) (orderIds : list string)
    (userId : string) (overrideCode overrideReason : option string) (s : Store) :
  exists r s' new,
    processMaterialOrder env orderIds userId overrideCode overrideReason s = (Ok r, s') /\
    statusHistoryT s' = statusHistoryT s /\
    calls s' = calls s ++ new /\
    Forall (fun k => isHistoryCall k = false) new.
Proof.
  destruct (processMaterialOrder_cases env orderIds userId overrideCode overrideReason s)
    as (r & s' & added & okIds & new & Hrun & _ & _ & Hh & _ & Hc & Hnew).
  by exists r, s', new.
Qed.

(** X15. On every input the audit table only grows, its existing rows kept
    in place; no order row is added, removed or renamed, the notes of
    every order are kept, and an order whose id is not in the batch is
    left exactly as it was. *)
Theorem processMaterialOrder_preserves (env : Env) (orderIds : list string)
    (userId : string) (overrideCode overrideReason : option string) (s : Store) :
  let s' := snd (processMaterialOrder env orderIds userId overrideCode overrideReason s) in
  materialOrderHistoryT s `prefix_of` materialOrderHistoryT s' /\
  order_id <$> ordersT s' = order_id <$> ordersT s /\
  order_notes <$> ordersT s' = order_notes <$> ordersT s /\
  (forall o, o ∈ ordersT s -> order_id o ∉ orderIds -> o ∈ ordersT s').
Proof.
  destruct (processMaterialOrder_cases env orderIds userId overrideCode overrideReason s)
    as (r & s' & added & okIds & new & Hrun & Ho & Hin & _ & Ha & _).
  rewrite Hrun. cbn [snd]. rewrite Ho, Ha, foldl_markOrdered.
  split; [by exists added|].
  rewrite <- !list_fmap_compose.
  split; [apply list_fmap_ext; intros _ o _; apply markOrdered_all_id|].
  split; [apply list_fmap_ext; intros _ o _; apply markOrdered_all_notes|].
  intros o Hmem Hnot. apply list_elem_of_fmap. exists o. split; [|done].
  symmetry. apply markOrdered_all_other. intros Hid. apply Hnot, Hin, Hid.
Qed.

(** X16. An order id that matches no row is not a failure: when step 4 is
    reached with a non-empty batch of ids none of which is in the orders
    table, and the database accepts the updates, the result is a success
    that counts every id as ordered, while the orders table is unchanged. *)
Theorem processMaterialOrder_unknown_ids (env : Env) (orderIds : list string)
    (userId : string) (overrideCode overrideReason : option string) (s : Store)
    (c : DuplicateOrderCheck) :
  fst (checkDuplicateOrders env orderIds s) = Ok c ->
  reachesProcessing c overrideCode ->
  orderIds <> [] ->
  (forall id, id ∈ orderIds -> updateOrderThrows env id = false) ->
  (forall o, o ∈ ordersT s -> order_id o ∉ orderIds) ->
  exists s',
    processMaterialOrder env orderIds userId overrideCode overrideReason s
    = (Ok (mkResult true
             ("Successfully ordered materials for " +:+ showNat (length orderIds) +:+
              " orders" +:+
              (if truthy overrideCode then " (Management Override Used)" else ""))
             None (Some c)), s') /\
    ordersT s' = ordersT s.
Proof.
  intros Hc Hreach Hne Hupd Hunknown. apply check_is_detect in Hc. subst c.
  destruct (processMaterialOrder_processing env orderIds userId overrideCode
              overrideReason s Hreach) as (added & n & -> & _).
  assert (succeededIds env orderIds = orderIds) as Hs.
  { unfold succeededIds. clear -Hupd.
    induction orderIds as [|id rest IH]; simpl; [done|].
    rewrite (Hupd id) by left. simpl. f_equal. apply IH. intros. apply Hupd. by right. }
  assert (failedIds env orderIds = []) as Hf.
  { unfold failedIds. clear -Hupd.
    induction orderIds as [|id rest IH]; simpl; [done|].
    rewrite (Hupd id) by left. apply IH. intros. apply Hupd. by right. }
  rewrite Hs, Hf. eexists. split.
  - unfold summaryMessage. simpl.
    destruct orderIds; [done|]. reflexivity.
  - fields. rewrite foldl_markOrdered.
    rewrite <- (list_fmap_id (ordersT s)) at 2.
    apply list_fmap_ext. intros _ o Ho%list_elem_of_lookup_2.
    apply markOrdered_all_other. by apply Hunknown.
Qed.

Lemma processMaterialOrder_unknown_ids_witness :
  exists s',
    processMaterialOrder (healthy T0 (answering [])) ["ghost"] "u1" None None shop
    = (Ok (mkResult true "Successfully ordered materials for 1 orders"
                    None (Some (mkCheck false [] false LOW))), s') /\
    ordersT s' = ordersT shop.
Proof.
  apply (processMaterialOrder_unknown_ids (healthy T0 (answering [])) ["ghost"] "u1"
           None None shop (mkCheck false [] false LOW)); try done.
  - by left.
  - intros o. unfold shop, orderA, orderB. simpl.
    rewrite !elem_of_cons, !elem_of_nil. intros [->|[->|[]]]; simpl; intros [?|[]]; done.
Defined.

(** X17. Ordering twice. When the store finds no row for the cutoff it is
    handed, which is never a valid date, the same batch sent twice in a
    row without an override code is processed both times: both checks come
    back LOW with no duplicate, neither request is refused, and every id
    whose update and audit insert are accepted gets two audit rows. *)
Theorem processMaterialOrder_twice_not_refused (env env' : Env) (orderIds : list string)
    (userId userId' : string) (s : Store) :
  let run1 := processMaterialOrder env orderIds userId None None s in
  let run2 := processMaterialOrder env' orderIds userId' None None (snd run1) in
  selectHistorySince env (cutoffTime env) (materialOrderHistoryT s) = Ok [] ->
  selectHistorySince env' (cutoffTime env') (materialOrderHistoryT (snd run1)) = Ok [] ->
  (forall id, id ∈ orderIds -> getOrderThrows env id = false) ->
  (forall id, id ∈ orderIds -> getOrderThrows env' id = false) ->
  exists r1 r2 added1 added2,
    fst run1 = Ok r1 /\ fst run2 = Ok r2 /\
    duplicateCheck r1 = Some (mkCheck false [] false LOW) /\
    duplicateCheck r2 = Some (mkCheck false [] false LOW) /\
    result_requiresOverride r1 = None /\ result_requiresOverride r2 = None /\
    success r1 = (0 <? length (succeededIds env orderIds))%nat /\
    success r2 = (0 <? length (succeededIds env' orderIds))%nat /\
    materialOrderHistoryT (snd run2) = materialOrderHistoryT s ++ added1 ++ added2 /\
    mo_orderId <$> added1 = loggedIds env orderIds /\
    mo_orderId <$> added2 = loggedIds env' orderIds.
Proof.
  intros run1 run2 Hsel Hsel' Hget Hget'.
  pose proof (detect_no_recent_rows env orderIds s Hsel Hget) as Hd.
  destruct (processMaterialOrder_processing env orderIds userId None None s)
    as (added1 & n1 & Hrun1 & Hids1 & _); [left; by rewrite Hd|].
  pose proof (detect_no_recent_rows env' orderIds (snd run1) Hsel' Hget') as Hd'.
  destruct (processMaterialOrder_processing env' orderIds userId' None None (snd run1))
    as (added2 & n2 & Hrun2 & Hids2 & _); [left; by rewrite Hd'|].
  rewrite Hd in Hrun1. rewrite Hd' in Hrun2.
  assert (materialOrderHistoryT (snd run1) = materialOrderHistoryT s ++ added1) as Htable.
  { unfold run1. by rewrite Hrun1. }
  do 2 eexists. exists added1, added2.
  split; [unfold run1; rewrite Hrun1; reflexivity|].
  unfold run2. rewrite Hrun2. split; [reflexivity|]. fields.
  rewrite Htable, <- app_assoc. by repeat split.
Qed.

Lemma processMaterialOrder_twice_not_refused_witness :
  let env := healthy T0 filtering in
  let env' := healthy (T0 + msPerHour) filtering in
  let run1 := processMaterialOrder env ["A"] "u1" None None shop in
  let run2 := processMaterialOrder env' ["A"] "u2" None None (snd run1) in
  exists r1 r2 added1 added2,
    fst run1 = Ok r1 /\ fst run2 = Ok r2 /\
    duplicateCheck r1 = Some (mkCheck false [] false LOW) /\
    duplicateCheck r2 = Some (mkCheck false [] false LOW) /\
    result_requiresOverride r1 = None /\ result_requiresOverride r2 = None /\
    success r1 = true /\
    success r2 = true /\
    materialOrderHistoryT (snd run2) = materialOrderHistoryT shop ++ added1 ++ added2 /\
    mo_orderId <$> added1 = ["A"] /\
    mo_orderId <$> added2 = ["A"].
Proof.
  apply (processMaterialOrder_twice_not_refused (healthy T0 filtering)
           (healthy (T0 + msPerHour) filtering) ["A"] "u1" "u2" shop); reflexivity.
Defined.

(** ** The PATCH handlers on every input *)

Ltac handler :=
  unfold patchOrderStatus, patchOrder, getOrder, updateOrder, createStatusHistory,
    freshUUID, sendStatusUpdate;
  run.

Ltac branches :=
  repeat match goal with
         | |- context [if ?b then _ else _] => destruct b eqn:?; simpl
         | |- context [match ?o with Some _ => _ | None => _ end] => destruct o eqn:?; simpl
         end.

Ltac finish_history :=
  first [ eexists [_]; split; [reflexivity|simpl; lia]
        | exists []; split; [by rewrite app_nil_r|simpl; lia] ].

(** X18. A request for an order id that matches no row is answered Not
    Found by both handlers, with the one lookup as only call and no table
    changed; when the lookup itself fails the answer is a server error,
    again with nothing written. *)
Theorem patch_unknown_order (env : Env) (orderId : string) (status : OrderStatus)
    (updates : OrderPatch) (sessionUser : option string) (s : Store) :
  List.find (fun o => String.eqb (order_id o) orderId) (ordersT s) = None ->
  let answer := if getOrderThrows env orderId then ServerError else NotFound in
  patchOrderStatus env orderId status sessionUser s
  = (Ok answer, withCalls s [CallGetOrder orderId]) /\
  patchOrder env orderId updates sessionUser s
  = (Ok answer, withCalls s [CallGetOrder orderId]).
Proof.
  intros Hfind. handler. rewrite Hfind.
  by destruct (getOrderThrows env orderId).
Qed.

Lemma patch_unknown_order_witness :
  patchOrderStatus (healthy T0 (answering [])) "ghost" COMPLETED None shop
  = (Ok NotFound, withCalls shop [CallGetOrder "ghost"]) /\
  patchOrder (healthy T0 (answering [])) "ghost" (mkPatch (Some COMPLETED) None) None shop
  = (Ok NotFound, withCalls shop [CallGetOrder "ghost"]).
Proof.
  apply (patch_unknown_order (healthy T0 (answering [])) "ghost" COMPLETED
           (mkPatch (Some COMPLETED) None) None shop).
  reflexivity.
Defined.

(** X19. Both handlers only append to the status history: on every input
    and in every environment the entries that were there stay in place, at
    most one entry is added, and the audit table is not touched. *)
Theorem patch_history_append_only (env : Env) (orderId : string) (status : OrderStatus)
    (updates : OrderPatch) (sessionUser : option string) (s : Store) :
  let s1 := snd (patchOrderStatus env orderId status sessionUser s) in
  let s2 := snd (patchOrder env orderId updates sessionUser s) in
  (exists new, statusHistoryT s1 = statusHistoryT s ++ new /\ (length new <= 1)%nat) /\
  (exists new, statusHistoryT s2 = statusHistoryT s ++ new /\ (length new <= 1)%nat) /\
  materialOrderHistoryT s1 = materialOrderHistoryT s /\
  materialOrderHistoryT s2 = materialOrderHistoryT s.
Proof.
  cbv zeta. split; [|split; [|split]].
  - handler. branches; finish_history.
  - handler. destruct updates as [[st|] notes]; simpl; branches; finish_history.
  - handler. by branches.
  - handler. destruct updates as [[st|] notes]; simpl; by branches.
Qed.

(** X20. PATCH /api/orders/:id/status updates the order before it writes
    the history entry: when the update is accepted and the history insert
    is rejected, the answer is a server error, yet the order now has the
    new status and the status history has no entry for the change. *)
Theorem patchOrderStatus_history_rejected (env : Env) (orderId : string)
    (status : OrderStatus) (sessionUser : option string) (s : Store) (o : Order) :
  getOrderThrows env orderId = false ->
  updateOrderThrows env orderId = false ->
  createStatusHistoryThrows env orderId = true ->
  List.find (fun o => String.eqb (order_id o) orderId) (ordersT s) = Some o ->
  let run := patchOrderStatus env orderId status sessionUser s in
  fst run = Ok ServerError /\
  order_status <$> List.find (fun o => String.eqb (order_id o) orderId) (ordersT (snd run))
  = Some status /\
  statusHistoryT (snd run) = statusHistoryT s.
Proof.
  intros Hget Hupd Hcreate Hfind. handler.
  rewrite ?Hget, ?Hfind. simpl. rewrite ?Hupd. simpl. rewrite ?Hcreate. simpl.
  split; [done|]. split; [|done].
  by rewrite (find_patched env orderId (mkPatch (Some status) None) (ordersT s) o Hfind).
Qed.

Lemma patchOrderStatus_history_rejected_witness :
  let env := mkEnv T0 uuidOf (answering []) never never (fun _ => true) never in
  let run := patchOrderStatus env "A" FRAME_CUT (Some "u1") shop in
  fst run = Ok ServerError /\
  order_status <$> List.find (fun o => String.eqb (order_id o) "A") (ordersT (snd run))
  = Some FRAME_CUT /\
  statusHistoryT (snd run) = statusHistoryT shop.
Proof.
  apply (patchOrderStatus_history_rejected
           (mkEnv T0 uuidOf (answering []) never never (fun _ => true) never)
           "A" FRAME_CUT (Some "u1") shop orderA); reflexivity.
Defined.

(** X21. PATCH /api/orders/:id writes the history entry before it updates
    the order: when the status differs, the history insert is accepted and
    the update is rejected, the answer is a server error, the orders table
    is unchanged, and the status history has gained an entry towards a
    status the order does not have. *)
Theorem patchOrder_update_rejected (env : Env) (orderId : string)
    (status : OrderStatus) (notes : option (option string))
    (sessionUser : option string) (s : Store) (o : Order) :
  getOrderThrows env orderId = false ->
  createStatusHistoryThrows env orderId = false ->
  updateOrderThrows env orderId = true ->
  List.find (fun o => String.eqb (order_id o) orderId) (ordersT s) = Some o ->
  status <> order_status o ->
  let run := patchOrder env orderId (mkPatch (Some status) notes) sessionUser s in
  fst run = Ok ServerError /\
  ordersT (snd run) = ordersT s /\
  statusHistoryT (snd run) =
    statusHistoryT s ++
      [mkStatusHistory (randomUUID env (uuids s)) orderId (Some (order_status o)) status
                       (actor sessionUser) None].
Proof.
  intros Hget Hcreate Hupd Hfind Hne. handler.
  rewrite ?Hget, ?Hfind. simpl.
  rewrite bool_decide_eq_true_2 by done. simpl.
  rewrite ?Hcreate. simpl. rewrite ?Hupd. simpl. done.
Qed.

Lemma patchOrder_update_rejected_witness :
  let env := mkEnv T0 uuidOf (answering []) never (fun _ => true) never never in
  let run := patchOrder env "A" (mkPatch (Some FRAME_CUT) None) (Some "u1") shop in
  fst run = Ok ServerError /\
  ordersT (snd run) = ordersT shop /\
  statusHistoryT (snd run) =
    statusHistoryT shop ++
      [mkStatusHistory "uuid-0" "A" (Some ORDER_PROCESSED) FRAME_CUT "u1" None].
Proof.
  apply (patchOrder_update_rejected
           (mkEnv T0 uuidOf (answering []) never (fun _ => true) never never)
           "A" FRAME_CUT None (Some "u1") shop orderA); done.
Defined.



(** The /status handler never answers with the order: a request ends in
    Not Found or in a server error. *)
Lemma patchOrderStatus_never_json (env : Env) (orderId : string) (status : OrderStatus)
    (sessionUser : option string) (s : Store) :
  fst (patchOrderStatus env orderId status sessionUser s)
  = Ok (if getOrderThrows env orderId then ServerError
        else match List.find (fun o => String.eqb (order_id o) orderId) (ordersT s) with
             | Some _ => ServerError
             | None => NotFound
             end).
Proof.
  handler. destruct (getOrderThrows env orderId) eqn:Hget; simpl; [done|].
  destruct (List.find _ (ordersT s)) as [o|] eqn:Hfind; simpl; [|done].
  destruct (updateOrderThrows env orderId); simpl; [done|].
  destruct (createStatusHistoryThrows env orderId); simpl; [done|].
  by rewrite (find_patched env orderId _ (ordersT s) o Hfind).
Qed.

(** X23. PATCH /api/orders/:id/status on an existing order, with every
    database statement accepted: the order gets the new status, its other
    columns kept, the status history gains an entry from the old status to
    the new one, and the request is then answered with a server error,
    because the handler calls [sendStatusUpdate], a method the notification
    service does not have.  The calls made are the lookup, the update, the
    history insert and the second lookup. *)
Theorem patchOrderStatus_accepted_server_error (env : Env) (orderId : string)
    (status : OrderStatus) (sessionUser : option string) (s : Store) (o : Order) :
  getOrderThrows env orderId = false ->
  updateOrderThrows env orderId = false ->
  createStatusHistoryThrows env orderId = false ->
  List.find (fun o => String.eqb (order_id o) orderId) (ordersT s) = Some o ->
  let run := patchOrderStatus env orderId status sessionUser s in
  fst run = Ok ServerError /\
  List.find (fun o => String.eqb (order_id o) orderId) (ordersT (snd run))
  = Some (mkOrder (order_id o) status (order_notes o) (clock env)) /\
  statusHistoryT (snd run)
  = statusHistoryT s ++
      [mkStatusHistory (randomUUID env (uuids s)) orderId (Some (order_status o)) status
                       (actor sessionUser) None] /\
  calls (snd run)
  = calls s ++ [CallGetOrder orderId; CallUpdateOrder orderId;
                CallCreateStatusHistory orderId; CallGetOrder orderId].
Proof.
  intros Hget Hupd Hcreate Hfind. handler.
  rewrite ?Hget, ?Hfind. simpl. rewrite ?Hupd. simpl. rewrite ?Hcreate. simpl.
  rewrite (find_patched env orderId _ (ordersT s) o Hfind). simpl.
  split; [done|].
  split; [exact (find_patched env orderId (mkPatch (Some status) None) (ordersT s) o Hfind)|].
  split; [done|].
  by rewrite <- !app_assoc.
Qed.

Lemma patchOrderStatus_accepted_server_error_witness :
  let env := healthy T0 (answering []) in
  let run := patchOrderStatus env "B" READY_FOR_PICKUP None shop in
  fst run = Ok ServerError /\
  List.find (fun o => String.eqb (order_id o) "B") (ordersT (snd run))
  = Some (mkOrder "B" READY_FOR_PICKUP (Some "Frame: R123") T0) /\
  statusHistoryT (snd run)
  = [mkStatusHistory "uuid-0" "B" (Some ORDER_PROCESSED) READY_FOR_PICKUP "system" None] /\
  calls (snd run)
  = [CallGetOrder "B"; CallUpdateOrder "B"; CallCreateStatusHistory "B"; CallGetOrder "B"].
Proof.
  apply (patchOrderStatus_accepted_server_error (healthy T0 (answering [])) "B"
           READY_FOR_PICKUP None shop orderB); reflexivity.
Defined.

(** ** Recent activity, workload metrics and basic alerts *)

(** Integers below 2^53 in magnitude are doubles. *)
Lemma nearestDouble_exact (z : Z) :
  Z.abs z < 9007199254740992 -> nearestDouble z = Num z.
Proof.
  intros Hz. unfold nearestDouble. cbv zeta.
  assert (Z.log2 (Z.abs z) < 53) as Hlog.
  { destruct (Z.eq_dec (Z.abs z) 0) as [->|Hne]; [done|].
    apply Z.log2_lt_pow2; [lia|]. by change (2 ^ 53) with 9007199254740992. }
  by rewrite (proj2 (Z.leb_le _ _)) by lia.
Qed.

(** For a time value and an hour within a hundred million hours of it,
    the arithmetic of [setHours] is exact: the date moves by whole hours,
    and is kept when it is still a time value. *)
Lemma setHoursAt_exact (zone tv k : Z) :
  Z.abs tv <= maxTime -> Z.abs zone <= msPerDay -> Z.abs k <= 100000000 ->
  setHoursAt zone (ValidDate tv) (Num k)
  = timeClip (Num (tv + (k - hourOfDay (tv + zone)) * msPerHour)).
Proof.
  unfold setHoursAt, makeDate, makeTime, js_mul, js_add, dayOf, minFromTime, secFromTime,
    msFromTime, hourOfDay, maxTime, msPerDay, msPerHour, msPerMinute, msPerSecond.
  intros Htv Hzone Hk. cbv zeta.
  repeat (rewrite nearestDouble_exact by (Z.to_euclidean_division_equations; lia);
          cbv iota beta).
  do 2 f_equal. Z.to_euclidean_division_equations; lia.
Qed.

(** The hour that [setHours] is given when [hours] is 24. *)
Lemma integerPart_default (H : Z) :
  0 <= H < 24 -> integerPart (PrimFloat.sub (hourNumber (Num H)) 24%float) = Num (H - 24).
Proof.
  intros Hr.
  assert (H = 0 \/ H = 1 \/ H = 2 \/ H = 3 \/ H = 4 \/ H = 5 \/ H = 6 \/ H = 7 \/
          H = 8 \/ H = 9 \/ H = 10 \/ H = 11 \/ H = 12 \/ H = 13 \/ H = 14 \/ H = 15 \/
          H = 16 \/ H = 17 \/ H = 18 \/ H = 19 \/ H = 20 \/ H = 21 \/ H = 22 \/ H = 23)
    as Hc by lia.
  repeat (destruct Hc as [->|Hc]; [reflexivity|]). subst. reflexivity.
Qed.

(** X24. [getRecentOrderingActivity] makes one call, the history query,
    returns what the database answers, raises when the lookup fails and
    writes nothing.  The cutoff it hands over is the clock moved by whole
    hours: [setHours] takes the integer part [k] of the local hour of the
    day minus [hours], so the cutoff lies [H - k] hours before the clock,
    and is an invalid date when [hours] is not finite.  With the argument
    omitted that is exactly 24 hours before the clock, in every zone.
    The clock is a time value, the zone offset at most a day, and [hours]
    within a hundred million hours or not finite. *)
Theorem getRecentOrderingActivity_run (env : Env) (zone : Z) (hours : option float)
    (s : Store) :
  let H := hourOfDay (clock env + zone) in
  let hour := integerPart (PrimFloat.sub (hourNumber (Num H)) (default 24%float hours)) in
  let cutoff :=
    match hour with
    | Num k => timeClip (Num (clock env + (k - H) * msPerHour))
    | NaN => InvalidDate
    end in
  Z.abs (clock env) <= maxTime ->
  Z.abs zone <= msPerDay ->
  (forall k, hour = Num k -> Z.abs k <= 100000000) ->
  getRecentOrderingActivity env zone hours s
  = (selectHistorySince env cutoff (materialOrderHistoryT s),
     withCalls s [CallSelectHistory cutoff]) /\
  (hours = None -> cutoff = timeClip (Num (clock env - 24 * msPerHour))).
Proof.
  intros H hour cutoff Hclock Hzone Hhours. split.
  - unfold getRecentOrderingActivity. cbv zeta. cbn [getHoursAt].
    change (integerPart (PrimFloat.sub (hourNumber (Num (hourOfDay (clock env + zone))))
                                       (default 24%float hours))) with hour.
    assert (setHoursAt zone (ValidDate (clock env)) hour = cutoff) as ->.
    { unfold cutoff. destruct hour as [k|] eqn:Hk; [|reflexivity].
      by rewrite setHoursAt_exact by auto. }
    unfold selectRecentHistory. run. reflexivity.
  - intros ->. unfold cutoff, hour. cbn [default].
    rewrite integerPart_default by (by apply Z.mod_pos_bound).
    do 2 f_equal. unfold msPerHour. lia.
Qed.

(** A request for the last hour and a half at [T0], on a server three
    hours ahead of UTC, where it is between 1 and 2 in the morning: the
    cutoff is one hour back. *)
Lemma getRecentOrderingActivity_run_witness :
  let env := healthy T0 filtering in
  let cutoff := ValidDate (T0 - 1 * msPerHour) in
  getRecentOrderingActivity env (3 * msPerHour) (Some 1.5%float) shopAfterA
  = (Ok [rowA], withCalls shopAfterA [CallSelectHistory cutoff]) /\
  (Some 1.5%float = None -> cutoff = timeClip (Num (T0 - 24 * msPerHour))).
Proof.
  apply (getRecentOrderingActivity_run (healthy T0 filtering) (3 * msPerHour)
           (Some 1.5%float) shopAfterA).
  - vm_compute. discriminate.
  - vm_compute. discriminate.
  - intros k [= <-]. vm_compute. discriminate.
Defined.

(** The same request on a server in UTC, where it is between 22 and 23:
    the cutoff is two hours back; and a request for the last NaN hours is
    handed an invalid date. *)
Lemma getRecentOrderingActivity_other_hours :
  let env := healthy T0 filtering in
  snd (getRecentOrderingActivity env 0 (Some 1.5%float) shop)
  = withCalls shop [CallSelectHistory (ValidDate (T0 - 2 * msPerHour))] /\
  snd (getRecentOrderingActivity env 0 (Some nan) shop)
  = withCalls shop [CallSelectHistory InvalidDate] /\
  snd (getRecentOrderingActivity env 0 (Some 2500000000%float) shop)
  = withCalls shop [CallSelectHistory InvalidDate].
Proof. repeat split; vm_compute; reflexivity. Qed.

Section WorkloadProperties.

Context {num : Type} (zero hundred : num) (add : num -> num -> num)
        (divideBy : num -> nat -> num) (percentage : nat -> nat -> num)
        (orZero : num -> num).

Local Notation metrics := (getWorkloadMetrics num zero hundred add divideBy percentage orZero).
Local Notation Row := (WorkloadRow num).

Lemma no_completed_among_active (rows : list Row) :
  List.filter (fun order => String.eqb (w_status num order) "COMPLETED")
              (List.filter (isActive num) rows) = [].
Proof.
  induction rows as [|r rest IH]; simpl; [done|].
  unfold isActive at 1.
  destruct (String.eqb (w_status num r) "COMPLETED") eqn:Hc; simpl.
  - by rewrite andb_false_r.
  - destruct (_ && _); simpl; [by rewrite Hc|done].
Qed.

Local Notation step := (tally num).

(** The loop that fills [statusCounts], from a state in which every status
    [st] has the entry of [c st] orders. *)
Lemma foldl_tally (rows : list Row) : forall (counts : gmap string CountValue) (c : string -> nat),
  (forall st, counts !! st = statusEntry st (c st)) ->
  forall st, foldl step counts rows !! st
             = statusEntry st
                 (c st + length (List.filter (fun r => String.eqb (w_status num r) st) rows)).
Proof.
  induction rows as [|r rest IH]; intros counts c Hinv st.
  - simpl. by rewrite Nat.add_0_r.
  - cbn [foldl List.filter].
    rewrite (IH (step counts r)
                (fun st => (c st + if String.eqb (w_status num r) st then 1 else 0)%nat)).
    + destruct (String.eqb (w_status num r) st); cbn [length]; f_equal; lia.
    + clear IH st. intros st. unfold tally. cbv zeta.
      pose proof (Hinv (w_status num r)) as Hk.
      destruct (String.eqb_spec (w_status num r) st) as [Heq|Hne].
      * rewrite <- Heq. clear Heq. unfold statusEntry in *.
        destruct (c (w_status num r)) as [|m]; cbn [Nat.eqb Nat.add] in *.
        -- rewrite Hk.
           destruct (bool_decide (w_status num r ∈ objectPrototypeKeys));
             [destruct (String.eqb (w_status num r) "__proto__")|];
             rewrite ?lookup_insert_eq; done.
        -- replace (S (m + 1) =? 0)%nat with false by (symmetry; by apply Nat.eqb_neq).
           destruct (bool_decide (w_status num r ∈ objectPrototypeKeys));
             [destruct (String.eqb (w_status num r) "__proto__")|];
             rewrite Hk; rewrite ?Hk, ?lookup_insert_eq; done.
      * rewrite Nat.add_0_r, <- Hinv.
        destruct (counts !! w_status num r) as [[n|]|];
          [| |destruct (bool_decide _); [destruct (String.eqb _ "__proto__")|]];
          rewrite ?lookup_insert_ne by done; done.
Qed.

Lemma isActive_excluded (r : Row) :
  isActive num r = negb (bool_decide (w_status num r ∈ excludedStatuses)).
Proof.
  unfold isActive, excludedStatuses.
  destruct (String.eqb_spec (w_status num r) "MYSTERY_UNCLAIMED") as [->|H1]; [done|].
  destruct (String.eqb_spec (w_status num r) "COMPLETED") as [->|H2]; [done|].
  destruct (String.eqb_spec (w_status num r) "PICKED_UP") as [->|H3]; [done|].
  simpl. symmetry. apply negb_true_iff, bool_decide_eq_false.
  rewrite !elem_of_cons, elem_of_nil. tauto.
Qed.

Lemma filter_status_active (rows : list Row) st :
  length (List.filter (fun r => String.eqb (w_status num r) st)
                      (List.filter (isActive num) rows))
  = if bool_decide (st ∈ excludedStatuses) then 0%nat
    else length (List.filter (fun r => String.eqb (w_status num r) st) rows).
Proof.
  induction rows as [|r rest IH]; [by destruct (bool_decide _)|].
  cbn [List.filter]. rewrite isActive_excluded.
  destruct (String.eqb (w_status num r) st) eqn:Hst.
  - assert (w_status num r = st) as Heq by (by apply String.eqb_eq).
    rewrite Heq. revert IH.
    destruct (bool_decide (st ∈ excludedStatuses)); intros IH; cbn [negb List.filter].
    + exact IH.
    + rewrite Hst. cbn [length]. f_equal. exact IH.
  - destruct (bool_decide (w_status num r ∈ excludedStatuses)); cbn [negb List.filter].
    + exact IH.
    + rewrite Hst. exact IH.
Qed.

(** X25. The on-time percentage that [getWorkloadMetrics] reports is
    always 100: completed orders are removed from the active orders before
    the completed ones are looked for among them, so none is ever found.
    This holds for every answer of the database, a failed one included. *)
Theorem getWorkloadMetrics_onTime_always_100 (answer : Result (list Row)) :
  onTimePercentage num (metrics answer) = hundred.
Proof.
  destruct answer as [rows|e]; simpl; [|done].
  by rewrite no_completed_among_active.
Qed.

(** X26. In the status counts of [getWorkloadMetrics] a status has an
    entry only when it is none of MYSTERY_UNCLAIMED, COMPLETED, PICKED_UP
    and some order has it.  When the status is not the name of a property
    of [Object.prototype], the entry is the number of orders with that
    status; when it is one, it never gets a count: the entry is a string,
    and under [__proto__] there is none.  [totalOrders] is the number of
    orders outside the three statuses. *)
Theorem getWorkloadMetrics_statusCounts (rows : list Row) (st : string) :
  let m := metrics (Ok rows) in
  let n := length (List.filter (fun r => String.eqb (w_status num r) st) rows) in
  statusCounts num m !! st
  = (if bool_decide (st ∈ excludedStatuses) then None
     else if (n =? 0)%nat then None
     else if bool_decide (st ∈ objectPrototypeKeys) then
       (if String.eqb st "__proto__" then None else Some NotACount)
     else Some (Count n)) /\
  totalOrders num m = length (List.filter (isActive num) rows).
Proof.
  cbv zeta. split; [|done].
  change (statusCounts num (metrics (Ok rows)))
    with (foldl step ∅ (List.filter (isActive num) rows)).
  rewrite (foldl_tally (List.filter (isActive num) rows) ∅ (fun _ => 0%nat))
    by (intros; by rewrite lookup_empty).
  rewrite filter_status_active. cbn [Nat.add].
  by destruct (bool_decide (st ∈ excludedStatuses)).
Qed.

(** Three orders with status "constructor" and two that are PREPPED. *)
Lemma statusCounts_constructor (x : num) :
  let row := fun st => mkWorkloadRow num st x true in
  let m := metrics (Ok [row "constructor"; row "PREPPED"; row "constructor";
                        row "__proto__"; row "PREPPED"; row "constructor"]) in
  statusCounts num m !! "PREPPED" = Some (Count 2) /\
  statusCounts num m !! "constructor" = Some NotACount /\
  statusCounts num m !! "__proto__" = None /\
  totalOrders num m = 6%nat.
Proof. cbv zeta. repeat split; vm_compute; reflexivity. Qed.

End WorkloadProperties.

Lemma replaceHyphens_no_hyphen (s : string) :
  Forall (fun c => c <> "-"%char) (list_ascii_of_string (replaceHyphens s)).
Proof.
  induction s as [|c r IH]; simpl; [done|].
  constructor; [|done].
  destruct (Ascii.eqb_spec c "-"); [done|done].
Qed.

Lemma isOverdue_iff now (o : DueOrder) :
  isOverdue now o = true <->
  (exists ms, due_date o = ValidDate ms /\ ms < now) /\ ~ isDone (due_status o).
Proof.
  unfold isOverdue, dateBefore, isDone. simpl.
  rewrite andb_true_iff, negb_true_iff, !orb_false_iff, !String.eqb_neq.
  destruct (due_date o) as [ms|].
  - rewrite Z.ltb_lt. split.
    + intros [Hlt (H1 & H2 & _)]. split; [by exists ms|]. tauto.
    + intros [(ms' & [= <-] & Hlt) Hnot]. split; [done|tauto].
  - split; [by intros [? _]|]. by intros [(ms & ? & _) _].
Qed.

(** X27. [generateBasicAlerts] returns at most one alert. It returns none
    exactly when no order is both past due (its due date is a valid date
    before now) and not done (neither COMPLETED nor PICKED_UP); otherwise
    the single alert is of high severity, counts those orders, says so in
    its message, and has an id without hyphens. *)
Theorem generateBasicAlerts_spec (now : Z) (uuid : string) (orders : list DueOrder) :
  let alerts := generateBasicAlerts now uuid orders in
  (alerts = [] <->
   forall o, o ∈ orders ->
     ~ ((exists ms, due_date o = ValidDate ms /\ ms < now) /\ ~ isDone (due_status o))) /\
  (forall a, a ∈ alerts ->
     alerts = [a] /\
     alert_severity a = "high" /\
     alert_count a = length (List.filter (isOverdue now) orders) /\
     (0 < alert_count a)%nat /\
     alert_message a = showNat (alert_count a) +:+ " orders are past their due date" /\
     Forall (fun c => c <> "-"%char) (list_ascii_of_string (alert_id a))).
Proof.
  unfold generateBasicAlerts.
  destruct (List.filter (isOverdue now) orders) as [|o0 rest] eqn:Hf; simpl.
  - split; [|by intros a Ha%elem_of_nil].
    split; [|done]. intros _ o Ho Hover.
    apply isOverdue_iff in Hover.
    assert (In o (List.filter (isOverdue now) orders)) as Hin
      by (apply filter_In; split; [by apply list_elem_of_In|done]).
    by rewrite Hf in Hin.
  - split.
    + split; [done|]. intros Hnone. exfalso.
      assert (In o0 (List.filter (isOverdue now) orders)) as Hin by (rewrite Hf; by left).
      apply filter_In in Hin as [Hin Hover].
      apply (Hnone o0); [by apply list_elem_of_In|by apply isOverdue_iff].
    + intros a Ha. apply list_elem_of_singleton in Ha. subst a. simpl.
      split; [done|]. split; [done|]. split; [done|]. split; [lia|]. split; [done|].
      repeat (constructor; [done|]). apply replaceHyphens_no_hyphen.
Qed.
